(** * create-af-app: the scaffolding script [createAFLabApp.js]

    A shallow embedding of the command-line script and of the part of the
    Node.js runtime it talks to (strings, [path], [fs], [child_process],
    [process], the [prompts] answers), followed by the properties of the
    scaffolding workflow: the install command, the dependency string, the
    pre-flight checks, the rollback and the exit status. *)

From Stdlib Require Import ZArith NArith Ascii String DecimalString DecimalN.
From stdpp Require Import gmap strings list fin_maps.

Local Open Scope Z_scope.

(** ** JavaScript strings *)

Module Js.

(** The line feed of the ['\n'] escapes. *)
Definition nl : string := String (ascii_of_nat 10) "".

(** [!s] is [true] exactly for the empty string. *)
Definition truthy (s : string) : bool :=
  match s with "" => false | String _ _ => true end.

(** Template literals and [String.prototype.concat] turn [undefined] into
    the text ["undefined"]. *)
Definition text (v : option string) : string := default "undefined" v.

(** [s.split(sep)] for a separator of one character. *)
Fixpoint split (sep : ascii) (s : string) : list string :=
  match s with
  | "" => [""]
  | String c s' =>
      if Ascii.eqb c sep then "" :: split sep s'
      else match split sep s' with
           | [] => [String c ""]
           | w :: ws => String c w :: ws
           end
  end.

(** [l.join(sep)]. *)
Fixpoint join (sep : string) (l : list string) : string :=
  match l with
  | [] => ""
  | [x] => x
  | x :: xs => x +:+ sep +:+ join sep xs
  end.

(** The character [c] does not occur in [s]. *)
Fixpoint lacks (c : ascii) (s : string) : bool :=
  match s with
  | "" => true
  | String d s' => negb (Ascii.eqb d c) && lacks c s'
  end.

(** [ToNumber] on strings, for the unsigned decimal numerals the runtime
    puts in its version identifier: [None] is [NaN]; the empty string is
    [0].  Signs, fractions, exponents, radix prefixes and surrounding
    white space are outside this model. *)
Definition toNumber (s : string) : option N :=
  N.of_uint <$> NilEmpty.uint_of_string s.

(** [x < n] for a string [x] and a number [n]: the string is converted
    with [ToNumber], and every comparison with [NaN] is [false]. *)
Definition lessThan (x : string) (n : N) : bool :=
  match toNumber x with
  | Some v => (v <? n)%N
  | None => false
  end.

(** The decimal numeral of [n], as [String(n)] prints it. *)
Definition numeral (n : N) : string := NilEmpty.string_of_uint (N.to_uint n).

End Js.

(** ** The table of packages and the install command *)

Definition GITHUB_REPO : string :=
  "https://github.com/tzeweiwee/airfoil-labs-nextjs-template.git".
Definition APP_COMMAND : string := "create-af-app".
Definition START_UP_TEXT : string := "Create Airfoil Lab App".

(** The object [packageDependencies], read with [packageDependencies[key]]:
    a key it does not own gives [undefined].  Keys are answers of the prompts
    (or [undefined]), never names of members of [Object.prototype]. *)
Definition packageDependencies : gmap string string :=
  <["chakraui" :=
      "@chakra-ui/react @emotion/react@^11 @emotion/styled@^11 framer-motion@^6"]>
  (<["tailwindcss" := "tailwindcss postcss autoprefixer"]>
  (<["prisma" := "prisma"]>
  (<["supabase" := ""]> ∅))).

(** [packageDependencies[key]] for a key that may be [undefined]. *)
Definition property (table : gmap string string) (key : option string)
  : option string :=
  table !! Js.text key.

(** [packageDependencies[cssStyleFramework] || '']: an [undefined] or empty
    entry gives the empty string. *)
Definition getCssDependencies (cssStyleFramework : option string) : string :=
  match property packageDependencies cssStyleFramework with
  | Some deps => if Js.truthy deps then deps else ""
  | None => ""
  end.

(** [backendServices.reduce((deps, service) =>
      deps.concat(packageDependencies[service]), '')], guarded by
    [!backendServices || backendServices.length === 0]. *)
Definition getBackendServicesDependencies
    (backendServices : option (list string)) : string :=
  match backendServices with
  | None | Some [] => ""
  | Some services =>
      foldl (fun deps service =>
               deps +:+ Js.text (packageDependencies !! service))
            "" services
  end.

(** [[cssStyleDependencies, backendDependencies].join(' ')], the value of
    [allDependencies] in [installDependencies]. *)
Definition allDependencies (cssStyling : option string)
    (backendServices : option (list string)) : string :=
  Js.join " " [getCssDependencies cssStyling;
               getBackendServicesDependencies backendServices].

(** The [switch] of [getInstallCommand]: the cases ['yarn'] and ['pnpm']
    return from their [if] or fall through to the [return] shared with
    ['npm'] and [default]. *)
Definition getInstallCommand (packageManager : option string)
    (dependencies : string) : string :=
  let install :=
    Js.text packageManager +:+ " install " +:+ dependencies in
  match packageManager with
  | Some pm =>
      if String.eqb pm "yarn" || String.eqb pm "pnpm" then
        if negb (Js.truthy dependencies) && negb (String.eqb dependencies " ")
        then Js.text packageManager +:+ " add " +:+ dependencies
        else install
      else install
  | None => install
  end.

(** ** Node's [path] module (POSIX flavour) *)

Module Path.

Definition isAbsolute (p : string) : bool :=
  match p with
  | String c _ => Ascii.eqb c "/"
  | "" => false
  end.

Fixpoint endsWithSlash (p : string) : bool :=
  match p with
  | "" => false
  | String c "" => Ascii.eqb c "/"
  | String _ p' => endsWithSlash p'
  end.

(** [normalizeString]: the segments are read from left to right onto a
    stack [res], kept here with its top first.  Empty segments and ["."]
    are dropped; [".."] pops a segment that is not itself [".."], and
    otherwise stays only when the path may climb above its root. *)
Fixpoint normalizeString (allowAboveRoot : bool) (res segs : list string)
  : list string :=
  match segs with
  | [] => rev res
  | seg :: segs' =>
      if String.eqb seg "" || String.eqb seg "." then
        normalizeString allowAboveRoot res segs'
      else if String.eqb seg ".." then
        match res with
        | top :: res' =>
            if String.eqb top ".." then
              normalizeString allowAboveRoot
                (if allowAboveRoot then ".." :: res else res) segs'
            else normalizeString allowAboveRoot res' segs'
        | [] =>
            normalizeString allowAboveRoot
              (if allowAboveRoot then [".."] else []) segs'
        end
      else normalizeString allowAboveRoot (seg :: res) segs'
  end.

Definition normalize (p : string) : string :=
  if String.eqb p "" then "." else
  let absolute := isAbsolute p in
  let trailing := endsWithSlash p in
  let body :=
    Js.join "/" (normalizeString (negb absolute) [] (Js.split "/" p)) in
  if String.eqb body "" then
    if absolute then "/" else if trailing then "./" else "."
  else
    (if absolute then "/" else "") +:+ body +:+
    (if trailing then "/" else "").

(** [path.join(...args)]: the non-empty arguments, separated by slashes,
    then normalized. *)
Definition join (args : list string) : string :=
  match filter (fun a => a ≠ "") args with
  | [] => "."
  | parts => normalize (Js.join "/" parts)
  end.

(** A place of the file system is the list of its segments from the
    root; this is its absolute path string. *)
Definition absolute (segs : list string) : string :=
  "/" +:+ Js.join "/" segs.

(** The place a path names when the working directory is the place
    [dir]: what [path.resolve(p)] yields, as segments. *)
Definition resolve (dir : list string) (p : string) : list string :=
  normalizeString false []
    (Js.split "/" (if isAbsolute p then p else absolute dir +:+ "/" +:+ p)).

(** A segment as it occurs in a normalized path: not empty, not ["."],
    not [".."], and free of slashes. *)
Definition plain (seg : string) : bool :=
  negb (String.eqb seg "") && negb (String.eqb seg ".") &&
  negb (String.eqb seg "..") && Js.lacks "/" seg.

End Path.

(** ** The world of one run *)

(** What [validate-npm-package-name] returns. *)
Record ValidationResult := {
  validForNewPackages : bool;
  errors : option (list string);
  warnings : option (list string)
}.

(** The answers of [prompts(dependenciesPrompts)]; a question left
    unanswered gives [undefined]. *)
Record Answers := {
  packageManager : option string;
  cssStyling : option string;
  backendServices : option (list string)
}.

(** The entries on disk, each as its segments from the root.  Files and
    directories are not told apart, and a directory need not be listed
    when something below it is. *)
Abbreviation Disk := (gset (list string)).

(** Everything outside the script that one run depends on. *)
Record Env := {
  (** [process.versions.node] *)
  nodeVersion : string;
  (** [process.argv] *)
  argv : list string;
  (** the working directory when the script starts, as a place;
      [process.cwd()] is its absolute path *)
  startDir : list string;
  (** the disk when the script starts *)
  startDisk : Disk;
  (** [validate-npm-package-name] *)
  validate : string -> ValidationResult;
  (** the answers to the three sets of questions *)
  dependencyAnswers : Answers;
  isCreateSupabaseProject : bool;
  supabaseProjectName : option string;
  (** a child process: from the command line, the working directory and the
      disk, the disk it leaves and whether its exit status is zero *)
  shell : string -> list string -> Disk -> Disk * bool
}.

Inductive Error :=
| ChildProcessError (cmd : string)   (* execSync: non-zero exit status *)
| ENOENT (path : string)             (* no such file or directory *)
| TypeError (what : string).

Inductive Questions :=
| DependenciesPrompts | PostInstallPrompts | SupabaseProjectPrompts.

Inductive Stream := Stdout | Stderr.

(** What is printed.  [chalk] only colours its argument and is left out. *)
Inductive Printed :=
| Text (s : string)
| Figlet (s : string)                         (* figlet.textSync(s) *)
| SelectedDependencies (a : Answers)          (* { selectedDependencies } *)
| BackendServices (b : option (list string))  (* { backendServices } *)
| Dependencies (d : string)                   (* { dependencies } *)
| Caught (e : Error).                         (* the error of the handler *)

(** What the script does to the outside, in the order it does it. *)
Inductive Event :=
| Console (to : Stream) (what : Printed)
| Validate (name : string)
| ExistsSync (path : string)
| ExecSync (cmd : string)
| Chdir (dir : string)
| RmSync (path : string)
| Prompts (which : Questions).

(** The module-level variables of the script, the working directory, the
    disk and the events so far. *)
Record State := {
  projectName : option string;
  projectPath : option string;
  selectedDependencies : Answers;
  isCurrentDir : bool;
  cwd : list string;
  disk : Disk;
  trace : list Event
}.

Definition noAnswers : Answers :=
  {| packageManager := None; cssStyling := None; backendServices := None |}.

Definition initial (env : Env) : State :=
  {| projectName := None; projectPath := None;
     selectedDependencies := noAnswers; isCurrentDir := false;
     cwd := startDir env; disk := startDisk env; trace := [] |}.

(** ** Procedures: state, exceptions and [process.exit] *)

Inductive Outcome (A : Type) :=
| Returns (a : A)
| Throws (e : Error)
| Exits (code : Z).
Arguments Returns {A} a.
Arguments Throws {A} e.
Arguments Exits {A} code.

Definition Proc (A : Type) : Type := State -> Outcome A * State.

Definition ret {A} (a : A) : Proc A := fun s => (Returns a, s).

Definition bind {A B} (m : Proc A) (k : A -> Proc B) : Proc B :=
  fun s =>
    match m s with
    | (Returns a, s') => k a s'
    | (Throws e, s') => (Throws e, s')
    | (Exits code, s') => (Exits code, s')
    end.

Definition throw {A} (e : Error) : Proc A := fun s => (Throws e, s).

(** [process.exit(code)]: nothing runs afterwards, not even a handler. *)
Definition exit {A} (code : Z) : Proc A := fun s => (Exits code, s).

(** [try { body } catch (err) { handler }] *)
Definition try_catch {A} (body : Proc A) (handler : Error -> Proc A)
  : Proc A :=
  fun s =>
    match body s with
    | (Throws e, s') => handler e s'
    | r => r
    end.

Definition get : Proc State := fun s => (Returns s, s).
Definition modify (f : State -> State) : Proc unit :=
  fun s => (Returns tt, f s).

Declare Scope proc_scope.
Delimit Scope proc_scope with proc.
Notation "x <- m ;; k" := (bind m (fun x => k))
  (at level 100, m at next level, right associativity) : proc_scope.
Notation "m ;; k" := (bind m (fun _ => k))
  (at level 100, right associativity) : proc_scope.
Local Open Scope proc_scope.

Definition when (b : bool) (m : Proc unit) : Proc unit :=
  if b then m else ret tt.

Fixpoint forEach {A} (l : list A) (f : A -> Proc unit) : Proc unit :=
  match l with
  | [] => ret tt
  | x :: l' => f x ;; forEach l' f
  end.

(** ** The runtime: console, file system, child processes *)

(** The state once the events [es] have taken place. *)
Definition logs (es : list Event) (s : State) : State :=
  {| projectName := projectName s; projectPath := projectPath s;
     selectedDependencies := selectedDependencies s;
     isCurrentDir := isCurrentDir s;
     cwd := cwd s; disk := disk s; trace := trace s ++ es |}.

Definition logged (e : Event) (s : State) : State := logs [e] s.

Definition withDisk (d : Disk) (s : State) : State :=
  {| projectName := projectName s; projectPath := projectPath s;
     selectedDependencies := selectedDependencies s;
     isCurrentDir := isCurrentDir s;
     cwd := cwd s; disk := d; trace := trace s |}.

Definition withCwd (dir : list string) (s : State) : State :=
  {| projectName := projectName s; projectPath := projectPath s;
     selectedDependencies := selectedDependencies s;
     isCurrentDir := isCurrentDir s;
     cwd := dir; disk := disk s; trace := trace s |}.

Definition emit (e : Event) : Proc unit := modify (logged e).
Definition setDisk (d : Disk) : Proc unit := modify (withDisk d).
Definition setCwd (dir : list string) : Proc unit := modify (withCwd dir).

Definition console_log (p : Printed) : Proc unit := emit (Console Stdout p).
Definition console_error (p : Printed) : Proc unit := emit (Console Stderr p).
Definition console_warn (p : Printed) : Proc unit := emit (Console Stderr p).

(** The entries of a disk at or below a place. *)
Definition below (place : list string) (d : Disk) : Disk :=
  filter (fun q => place `prefix_of` q) d.

(** A place exists when the disk has an entry at or below it. *)
Definition present (place : list string) (d : Disk) : bool :=
  bool_decide (below place d ≠ ∅).

(** [fs.existsSync(path)]; it is [false] for a value that is no path. *)
Definition existsSync (path : option string) : Proc bool :=
  match path with
  | None => ret false
  | Some p =>
      emit (ExistsSync p) ;;
      s <- get ;;
      ret (present (Path.resolve (cwd s) p) (disk s))
  end.

(** [fs.rmSync(path, { recursive: true })]: without [force], a missing
    path is an error; otherwise the path goes with all below it. *)
Definition rmSync (path : option string) : Proc unit :=
  match path with
  | None => throw (TypeError "path")
  | Some p =>
      emit (RmSync p) ;;
      s <- get ;;
      let place := Path.resolve (cwd s) p in
      if present place (disk s)
      then setDisk (disk s ∖ below place (disk s))
      else throw (ENOENT p)
  end.

(** [process.chdir(directory)] *)
Definition chdir (directory : option string) : Proc unit :=
  match directory with
  | None => throw (TypeError "directory")
  | Some p =>
      emit (Chdir p) ;;
      s <- get ;;
      let place := Path.resolve (cwd s) p in
      if present place (disk s)
      then setCwd place
      else throw (ENOENT p)
  end.

(** [execSync(cmd)]: runs the child to its end; a non-zero exit status is
    thrown. *)
Definition execSync (env : Env) (cmd : string) : Proc unit :=
  emit (ExecSync cmd) ;;
  s <- get ;;
  let '(d, ok) := shell env cmd (cwd s) (disk s) in
  setDisk d ;;
  if ok then ret tt else throw (ChildProcessError cmd).

(** ** The script *)

(** Assignments to the module-level variables. *)
Definition withProjectName (name : string) (s : State) : State :=
  {| projectName := Some name; projectPath := projectPath s;
     selectedDependencies := selectedDependencies s;
     isCurrentDir := isCurrentDir s;
     cwd := cwd s; disk := disk s; trace := trace s |}.

Definition withProjectPath (path : string) (s : State) : State :=
  {| projectName := projectName s; projectPath := Some path;
     selectedDependencies := selectedDependencies s;
     isCurrentDir := isCurrentDir s;
     cwd := cwd s; disk := disk s; trace := trace s |}.

Definition withIsCurrentDir (b : bool) (s : State) : State :=
  {| projectName := projectName s; projectPath := projectPath s;
     selectedDependencies := selectedDependencies s;
     isCurrentDir := b;
     cwd := cwd s; disk := disk s; trace := trace s |}.

Definition withSelectedDependencies (a : Answers) (s : State) : State :=
  {| projectName := projectName s; projectPath := projectPath s;
     selectedDependencies := a;
     isCurrentDir := isCurrentDir s;
     cwd := cwd s; disk := disk s; trace := trace s |}.

Definition setProjectName (name : string) : Proc unit :=
  modify (withProjectName name).
Definition setIsCurrentDir (b : bool) : Proc unit :=
  modify (withIsCurrentDir b).
Definition setSelectedDependencies (a : Answers) : Proc unit :=
  modify (withSelectedDependencies a).

(** [projectPath = path.join(process.cwd(), projectName)]; [path.join]
    refuses an argument that is not a string. *)
Definition setProjectPath : Proc unit :=
  s <- get ;;
  match projectName s with
  | None => throw (TypeError "path")
  | Some name =>
      modify (withProjectPath (Path.join [Path.absolute (cwd s); name]))
  end.

Definition nodeVersionMessage (currentNodeVersion : string) : string :=
  "You are running Node " +:+ currentNodeVersion +:+ "." +:+ Js.nl +:+
  "Create Airfoil Next App requires Node 14 or higher. " +:+ Js.nl +:+
  "Please update your version of Node.".

(** [semver[0]] of [process.versions.node.split('.')] *)
Definition nodeMajor (env : Env) : string :=
  let semver := Js.split "." (nodeVersion env) in
  default "" (head semver).

Definition validateNodeVersion (env : Env) : Proc unit :=
  let currentNodeVersion := nodeVersion env in
  let major := nodeMajor env in
  if Js.lessThan major 14 then
    console_error (Text (nodeVersionMessage currentNodeVersion)) ;;
    exit 1
  else ret tt.

Definition validateAppName (env : Env) : Proc unit :=
  when (length (argv env) <? 3)%nat
    (console_log (Text "You have to provide a name to your app.") ;;
     console_log (Text "For example :") ;;
     console_log (Text (" npx " +:+ APP_COMMAND +:+ " my-app")) ;;
     exit 1) ;;
  let name := default "" (argv env !! 2%nat) in
  setProjectName name ;;
  if String.eqb name "." then
    setIsCurrentDir true
  else
    emit (Validate name) ;;
    let validationResult := validate env name in
    when (negb (validForNewPackages validationResult))
      (console_error
         (Text ("Cannot create a project named " +:+ name +:+
                " due to npm naming restrictions.")) ;;
       console_log (Text "Please fix the errors below: ") ;;
       forEach (default [] (errors validationResult))
         (fun err => console_error (Text (" - " +:+ err))) ;;
       forEach (default [] (warnings validationResult))
         (fun warning => console_warn (Text (" - " +:+ warning))) ;;
       exit 1).

(** The message of the collision check. *)
Definition directoryExists : Event :=
  Console Stderr
    (Text "Directory already exist, please choose another directory or project name").

(** [!isCurrentDir && fs.existsSync(projectPath)]: the disk is only asked
    outside the current-directory mode. *)
Definition validateProjectPath : Proc unit :=
  s <- get ;;
  taken <- (if negb (isCurrentDir s) then existsSync (projectPath s)
            else ret false) ;;
  when taken (emit directoryExists ;; exit 1).

Definition cloneCommand (path : option string) : string :=
  "git clone --depth 1 " +:+ GITHUB_REPO +:+ " " +:+ Js.text path.

Definition cloneRepo (env : Env) : Proc unit :=
  console_log (Text "Creating template...") ;;
  s <- get ;;
  execSync env (cloneCommand (projectPath s)).

Definition installDependencies (env : Env) : Proc unit :=
  emit (Prompts DependenciesPrompts) ;;
  let a := dependencyAnswers env in
  setSelectedDependencies a ;;
  console_log (SelectedDependencies a) ;;
  let cssStyleDependencies := getCssDependencies (cssStyling a) in
  let backendDependencies :=
    getBackendServicesDependencies (backendServices a) in
  let allDependencies :=
    Js.join " " [cssStyleDependencies; backendDependencies] in
  console_log (Text "Installing dependencies...") ;;
  execSync env (getInstallCommand (packageManager a) allDependencies).

(** [backendServices.includes(x)]; there is no such method on
    [undefined]. *)
Definition includes (services : option (list string)) (x : string)
  : Proc bool :=
  match services with
  | None => throw (TypeError "includes")
  | Some l => ret (bool_decide (x ∈ l))
  end.

Definition runScript (pm : option string) (script : string) : string :=
  Js.text pm +:+ " run " +:+ script.

Definition postInstall (env : Env) : Proc unit :=
  emit (Prompts PostInstallPrompts) ;;
  s <- get ;;
  let services := backendServices (selectedDependencies s) in
  let pm := packageManager (selectedDependencies s) in
  console_log (BackendServices services) ;;
  prisma <- includes services "prisma" ;;
  when prisma
    (execSync env (runScript pm "init:prisma") ;;
     console_log (Text "Prisma boilerplate codes added!")) ;;
  supabase <- includes services "supabase" ;;
  when supabase
    (execSync env (runScript pm "init:supabase") ;;
     console_log (Text "Supabase boilerplate code added!")) ;;
  when (isCreateSupabaseProject env)
    (execSync env "npx supabase login" ;;
     execSync env "npx supabase projects list" ;;
     emit (Prompts SupabaseProjectPrompts) ;;
     execSync env ("npx supabase projects create " +:+
                   Js.text (supabaseProjectName env) +:+ " -i")).

Definition cleanUp : Proc unit := rmSync (Some "./.git").

Definition deleteDirectory : Proc unit :=
  console_log (Text "Removing project...") ;;
  s <- get ;;
  rmSync (projectPath s).

Definition startUp : Proc unit := console_log (Figlet START_UP_TEXT).

Definition success : Proc unit :=
  console_log (Figlet "SUCCESS!") ;;
  s <- get ;;
  console_log
    (Text ("Airfoil Lab project created! " +:+
           (if isCurrentDir s then ""
            else "cd " +:+ Js.text (projectName s) +:+ " to start!"))).

Definition init (env : Env) : Proc unit :=
  startUp ;;
  validateNodeVersion env ;;
  validateAppName env ;;
  setProjectPath ;;
  validateProjectPath ;;
  try_catch
    (cloneRepo env ;;
     (s <- get ;; chdir (projectPath s)) ;;
     installDependencies env ;;
     postInstall env ;;
     cleanUp ;;
     success)
    (fun err =>
       console_error (Caught err) ;;
       deleteDirectory).

(** The whole run: [init()] from the initial state. *)
Definition run (env : Env) : Outcome unit * State := init env (initial env).

(** The exit status of the process.  The promise of [init()] has no
    handler: when it is rejected, Node 15 and later end with status 1, and
    Node 14 only warns. *)
Definition exitCode (env : Env) (o : Outcome unit) : Z :=
  match o with
  | Returns _ => 0
  | Exits code => code
  | Throws _ => if Js.lessThan (nodeMajor env) 15 then 0 else 1
  end.

(** ** The earlier revision of the script

    Its table lists a client package for Supabase, and its
    [getInstallCommand] prints the dependency string in the cases ['yarn']
    and ['pnpm'] before the same test. *)

Module Legacy.

Definition packageDependencies : gmap string string :=
  <["chakraui" :=
      "@chakra-ui/react @emotion/react@^11 @emotion/styled@^11 framer-motion@^6"]>
  (<["tailwindcss" := "tailwindcss postcss autoprefixer"]>
  (<["prisma" := "prisma"]>
  (<["supabase" := "@supabase/supabase-js"]> ∅))).

Definition getInstallCommand (packageManager : option string)
    (dependencies : string) : Proc string :=
  let install :=
    Js.text packageManager +:+ " install " +:+ dependencies in
  match packageManager with
  | Some pm =>
      if String.eqb pm "yarn" || String.eqb pm "pnpm" then
        console_log (Dependencies dependencies) ;;
        if negb (Js.truthy dependencies) &&
           negb (String.eqb dependencies " ")
        then ret (Js.text packageManager +:+ " add " +:+ dependencies)
        else ret install
      else ret install
  | None => ret install
  end.

End Legacy.

(** ** Notions used by the properties *)

(** The entry of the table for a choice, empty for a choice the table does
    not have. *)
Definition entry (choice : string) : string :=
  default "" (packageDependencies !! choice).

(** The dependency string in the words of the specification: the entry of
    the CSS choice followed at once by the entries of the backend
    choices. *)
Definition concatenationOfEntries (css : string) (backends : list string)
  : string :=
  entry css +:+ foldr (fun b rest => entry b +:+ rest) "" backends.

(** The steps of [init] before its [try]. *)
Definition preflight (env : Env) : Proc unit :=
  startUp ;;
  validateNodeVersion env ;;
  validateAppName env ;;
  setProjectPath ;;
  validateProjectPath.

(** The steps of the [try] block after [cloneRepo]. *)
Definition furnish (env : Env) : Proc unit :=
  (s <- get ;; chdir (projectPath s)) ;;
  installDependencies env ;;
  postInstall env ;;
  cleanUp ;;
  success.

(** The [catch] block. *)
Definition rollback (err : Error) : Proc unit :=
  console_error (Caught err) ;;
  deleteDirectory.

(** The state when the pre-flight steps are over, and the state when
    [cloneRepo] is over. *)
Definition preflighted (env : Env) : State :=
  snd (preflight env (initial env)).
Definition cloned (env : Env) : State :=
  snd (cloneRepo env (preflighted env)).

(** ** Sample environments *)

Module Demo.

(** A stand-in for [validate-npm-package-name]: names with a space or a
    leading period are refused. *)
Definition naming (name : string) : ValidationResult :=
  let ok := Js.lacks " " name && negb (String.prefix "." name) in
  {| validForNewPackages := ok;
     errors := if ok then None
               else Some ["name can only contain URL-friendly characters"];
     warnings := None |}.

(** Child processes: a command that starts with [failing], if any, ends
    with a non-zero status; [git clone] writes into its last argument, and
    leaves a part of the clone behind when it fails; the other commands
    leave the disk as it is. *)
Definition children (failing : option string) (cmd : string)
    (dir : list string) (d : Disk) : Disk * bool :=
  let ok :=
    match failing with
    | Some start => negb (String.prefix start cmd)
    | None => true
    end in
  if String.prefix "git clone" cmd then
    let target := Path.resolve dir (default "" (last (Js.split " " cmd))) in
    (if ok then {[ target ++ [".git"]; target ++ ["package.json"] ]} ∪ d
     else {[ target ++ [".git"] ]} ∪ d,
     ok)
  else (d, ok).

(** A run in [/home/u/work], an empty directory next to a file
    [/home/u/notes.txt], where the user picks pnpm, Chakra UI and
    Prisma. *)
Definition env (version arg : string) (failing : option string) : Env :=
  {| nodeVersion := version;
     argv := ["node"; "create-af-app"; arg];
     startDir := ["home"; "u"; "work"];
     startDisk := {[ ["home"; "u"; "notes.txt"]; ["home"; "u"; "work"] ]};
     validate := naming;
     dependencyAnswers :=
       {| packageManager := Some "pnpm"; cssStyling := Some "chakraui";
          backendServices := Some ["prisma"] |};
     isCreateSupabaseProject := false;
     supabaseProjectName := None;
     shell := children failing |}.

End Demo.

(** What [validateAppName] prints for a name that is not valid. *)
Definition complaints (name : string) (v : ValidationResult) : list Event :=
  [Console Stderr
     (Text ("Cannot create a project named " +:+ name +:+
            " due to npm naming restrictions."));
   Console Stdout (Text "Please fix the errors below: ")] ++
  map (fun err => Console Stderr (Text (" - " +:+ err)))
      (default [] (errors v)) ++
  map (fun warning => Console Stderr (Text (" - " +:+ warning)))
      (default [] (warnings v)).

(** What [validateAppName] prints when the argument is missing. *)
Definition usage : list Event :=
  [Console Stdout (Text "You have to provide a name to your app.");
   Console Stdout (Text "For example :");
   Console Stdout (Text (" npx " +:+ APP_COMMAND +:+ " my-app"))].

(** The single positional argument, [process.argv[2]]. *)
Definition argument (env : Env) : string := default "" (argv env !! 2%nat).

(** The state when [process.chdir(projectPath)] is over. *)
Definition entered (env : Env) : State :=
  snd (bind get (fun s => chdir (projectPath s)) (cloned env)).

(** The dependency install command has completed: every step up to and
    including [installDependencies] has returned. *)
Definition installed (env : Env) : Prop :=
  fst (preflight env (initial env)) = Returns tt ∧
  fst (cloneRepo env (preflighted env)) = Returns tt ∧
  fst (bind get (fun s => chdir (projectPath s)) (cloned env)) = Returns tt ∧
  fst (installDependencies env (entered env)) = Returns tt.

(** A procedure leaves an observation [f] of the state as it is. *)
Definition preserves {X A} (f : State -> X) (m : Proc A) : Prop :=
  forall s, f (snd (m s)) = f s.


(** The commands given to [execSync], in order. *)
Definition commands (t : list Event) : list string :=
  omap (fun e => match e with ExecSync cmd => Some cmd | _ => None end) t.

(** The commands a run has given to [execSync] when it is in state [s]. *)
Definition executed (s : State) : list string := commands (trace s).

(** The commands of [postInstall] that have to do with Supabase. *)
Definition supabaseCommands (env : Env) (pm : option string) : list string :=
  [runScript pm "init:supabase"; "npx supabase login";
   "npx supabase projects list";
   "npx supabase projects create " +:+
     Js.text (supabaseProjectName env) +:+ " -i"].

(** The paths given to [fs.rmSync], in order. *)
Definition removals (t : list Event) : list string :=
  omap (fun e => match e with RmSync p => Some p | _ => None end) t.

(** The paths a run has given to [fs.rmSync] when it is in state [s]. *)
Definition removed (s : State) : list string := removals (trace s).

(** The commands [postInstall] is to run for the selected services, in the
    order of its three [if] statements. *)
Definition postInstallPlan (env : Env) (pm : option string)
    (services : list string) : list string :=
  (if bool_decide ("prisma" ∈ services)
   then [runScript pm "init:prisma"] else []) ++
  (if bool_decide ("supabase" ∈ services)
   then [runScript pm "init:supabase"] else []) ++
  (if isCreateSupabaseProject env
   then ["npx supabase login"; "npx supabase projects list";
         "npx supabase projects create " +:+
           Js.text (supabaseProjectName env) +:+ " -i"]
   else []).

(** The place of the project: where the resolved path points. *)
Definition projectPlace (env : Env) : list string :=
  Path.resolve (startDir env)
    (Path.join [Path.absolute (startDir env); argument env]).

(** The state when [installDependencies] is over, and the state when
    [postInstall] is over. *)
Definition equipped (env : Env) : State :=
  snd (installDependencies env (entered env)).

(** All the commands of a run that goes through, in order. *)
Definition plannedCommands (env : Env) : list string :=
  let a := dependencyAnswers env in
  [cloneCommand
     (Some (Path.join [Path.absolute (startDir env); argument env]));
   getInstallCommand (packageManager a)
     (allDependencies (cssStyling a) (backendServices a))] ++
  postInstallPlan env (packageManager a) (default [] (backendServices a)).

(** A procedure keeps a property [I] of the state once it holds. *)
Definition keeps {A} (I : State -> Prop) (m : Proc A) : Prop :=
  forall s, I s -> I (snd (m s)).

(** ** The rest of the earlier revision

    The earlier revision has the same pre-flight steps, [cloneRepo],
    [cleanUp], [deleteDirectory] and handler.  It differs in its table (see
    [Legacy]), in [installDependencies], which changes the working
    directory itself, in the closing message, and in having no
    [postInstall].  Its variable [cssStyleFramework] is kept where the
    later revision keeps the same answer: in the field [cssStyling] of
    [selectedDependencies]. *)

Module Earlier.

Definition getCssDependencies (cssStyleFramework : option string) : string :=
  match property Legacy.packageDependencies cssStyleFramework with
  | Some deps => if Js.truthy deps then deps else ""
  | None => ""
  end.

Definition getBackendServicesDependencies
    (backendServices : option (list string)) : string :=
  match backendServices with
  | None | Some [] => ""
  | Some services =>
      foldl (fun deps service =>
               deps +:+ Js.text (Legacy.packageDependencies !! service))
            "" services
  end.

(** The value of [allDependencies] in [installDependencies]. *)
Definition allDependencies (cssStyling : option string)
    (backendServices : option (list string)) : string :=
  Js.join " " [getCssDependencies cssStyling;
               getBackendServicesDependencies backendServices].

(** [cssStyleFramework = cssStyling] *)
Definition setCssStyleFramework (cssStyling : option string) : Proc unit :=
  modify (fun s =>
    withSelectedDependencies
      {| packageManager := packageManager (selectedDependencies s);
         cssStyling := cssStyling;
         backendServices := backendServices (selectedDependencies s) |} s).

Definition installDependencies (env : Env) : Proc unit :=
  (s <- get ;; chdir (projectPath s)) ;;
  emit (Prompts DependenciesPrompts) ;;
  let a := dependencyAnswers env in
  setCssStyleFramework (cssStyling a) ;;
  let cssStyleDependencies := getCssDependencies (cssStyling a) in
  let backendDependencies :=
    getBackendServicesDependencies (backendServices a) in
  let allDependencies :=
    Js.join " " [cssStyleDependencies; backendDependencies] in
  console_log (Text "Installing dependencies...") ;;
  cmd <- Legacy.getInstallCommand (packageManager a) allDependencies ;;
  execSync env cmd.

(** Deprecated in the source, and not called by [init]. *)
Definition copyBoilerplateFiles (env : Env) : Proc unit :=
  s <- get ;;
  match cssStyling (selectedDependencies s) with
  | None => ret tt
  | Some framework =>
      if negb (Js.truthy framework) || String.eqb framework "none"
      then ret tt
      else
        console_log (Text "Copying boilerplate files...") ;;
        execSync env
          ("rsync -avh boilerplate_files/" +:+ framework +:+ "/* ./")
  end.

Definition success : Proc unit :=
  console_log (Figlet "SUCCESS!") ;;
  s <- get ;;
  console_log
    (Text ("Airfoil Lab project constructed! " +:+
           (if isCurrentDir s then ""
            else "cd " +:+ Js.text (projectName s) +:+ " to start!"))).

Definition init (env : Env) : Proc unit :=
  startUp ;;
  validateNodeVersion env ;;
  validateAppName env ;;
  setProjectPath ;;
  validateProjectPath ;;
  try_catch
    (cloneRepo env ;;
     installDependencies env ;;
     cleanUp ;;
     success)
    (fun err =>
       console_error (Caught err) ;;
       deleteDirectory).

Definition run (env : Env) : Outcome unit * State := init env (initial env).

(** The steps of the [try] block after [cloneRepo]. *)
Definition furnish (env : Env) : Proc unit :=
  installDependencies env ;;
  cleanUp ;;
  success.


End Earlier.


(** ** More sample environments *)

Module Sample.

(** The script started without a project name. *)
Definition bare : Env :=
  {| nodeVersion := "18.12.0";
     argv := ["node"; "create-af-app"];
     startDir := ["home"; "u"; "work"];
     startDisk := {[ ["home"; "u"; "notes.txt"]; ["home"; "u"; "work"] ]};
     validate := Demo.naming;
     dependencyAnswers := noAnswers;
     isCreateSupabaseProject := false;
     supabaseProjectName := None;
     shell := Demo.children None |}.



(** Both services and a Supabase project named [shop]; every child process
    succeeds. *)
Definition full : Env :=
  {| nodeVersion := "18.12.0";
     argv := ["node"; "create-af-app"; "my-app"];
     startDir := ["home"; "u"; "work"];
     startDisk := {[ ["home"; "u"; "notes.txt"]; ["home"; "u"; "work"] ]};
     validate := Demo.naming;
     dependencyAnswers :=
       {| packageManager := Some "yarn"; cssStyling := Some "none";
          backendServices := Some ["prisma"; "supabase"] |};
     isCreateSupabaseProject := true;
     supabaseProjectName := Some "shop";
     shell := Demo.children None |}.


End Sample.

(** * Properties *)

(** ** Strings *)

Lemma append_nil_r (s : string) : s +:+ "" = s.
Proof. induction s as [|c s IH]; [done|]. unfold String.app; simpl. by f_equal. Qed.

Lemma append_assoc (s t u : string) : (s +:+ t) +:+ u = s +:+ (t +:+ u).
Proof.
  induction s as [|c s IH]; [done|].
  unfold String.app in *; simpl. by f_equal.
Qed.

Lemma append_cons (c : ascii) (s t : string) :
  String c s +:+ t = String c (s +:+ t).
Proof. done. Qed.

Lemma join_pair (sep a b : string) : Js.join sep [a; b] = a +:+ sep +:+ b.
Proof. done. Qed.

Lemma split_append (c : ascii) (a b : string) :
  Js.lacks c a = true ->
  Js.split c (a +:+ String c b) = a :: Js.split c b.
Proof.
  induction a as [|d a IH]; intros H.
  - unfold String.app; simpl. by rewrite Ascii.eqb_refl.
  - simpl in H. apply andb_prop in H as [Hd Ha].
    rewrite append_cons. simpl.
    destruct (Ascii.eqb d c); [done|]. by rewrite (IH Ha).
Qed.

Lemma split_lacks (c : ascii) (a : string) :
  Js.lacks c a = true -> Js.split c a = [a].
Proof.
  induction a as [|d a IH]; intros H; [done|].
  simpl in H. apply andb_prop in H as [Hd Ha]. simpl.
  destruct (Ascii.eqb d c); [done|]. by rewrite (IH Ha).
Qed.

(** ** The install command *)

(** What [getInstallCommand] computes: the verb is ["add"] exactly for
    ['yarn'] and ['pnpm'] with an empty dependency string. *)
Lemma getInstallCommand_spec (pm : option string) (deps : string) :
  getInstallCommand pm deps =
    if bool_decide (pm = Some "yarn" ∨ pm = Some "pnpm") && bool_decide (deps = "")
    then Js.text pm +:+ " add "
    else Js.text pm +:+ " install " +:+ deps.
Proof.
  unfold getInstallCommand.
  destruct (decide (pm = Some "yarn" ∨ pm = Some "pnpm")) as [Hpm|Hpm].
  - rewrite (bool_decide_eq_true_2 _ Hpm).
    assert (exists n, pm = Some n ∧
              String.eqb n "yarn" || String.eqb n "pnpm" = true)
      as (n & -> & ->) by (destruct Hpm as [->| ->]; by eexists).
    destruct deps as [|c deps]; [done|].
    by rewrite bool_decide_eq_false_2.
  - rewrite (bool_decide_eq_false_2 _ Hpm). simpl.
    destruct pm as [pm|]; [|done].
    destruct (String.eqb_spec pm "yarn") as [->|_]; [by destruct Hpm; left|].
    destruct (String.eqb_spec pm "pnpm") as [->|_]; [by destruct Hpm; right|].
    done.
Qed.

Lemma getInstallCommand_nonempty (pm : option string) (deps : string) :
  deps ≠ "" ->
  getInstallCommand pm deps = Js.text pm +:+ " install " +:+ deps.
Proof.
  intros H. rewrite getInstallCommand_spec.
  rewrite (bool_decide_eq_false_2 (deps = "")); [|done].
  by rewrite andb_false_r.
Qed.

(** The earlier revision returns the same command. *)
Lemma legacy_getInstallCommand_result (pm : option string) (deps : string)
    (s : State) :
  fst (Legacy.getInstallCommand pm deps s) =
    Returns (getInstallCommand pm deps).
Proof.
  unfold Legacy.getInstallCommand, getInstallCommand.
  destruct pm as [pm|]; [|done].
  destruct (String.eqb pm "yarn" || String.eqb pm "pnpm"); [|done].
  unfold bind, console_log, emit, modify, ret.
  by destruct (negb (Js.truthy deps) && negb (String.eqb deps " ")).
Qed.

(** C2 (evaluation of the code where it departs from the claim): with
    ['pnpm'] and the non-empty dependency string of the choices Chakra UI
    and Prisma, [getInstallCommand] returns an ["install"] command, in both
    revisions of the script; with an empty dependency string it returns
    ["pnpm add "], a bare ["add"]. *)
Theorem getInstallCommand_verb_inverted :
  getInstallCommand (Some "pnpm")
    (allDependencies (Some "chakraui") (Some ["prisma"])) =
    "pnpm install @chakra-ui/react @emotion/react@^11 @emotion/styled@^11 framer-motion@^6 prisma"
  ∧ (forall s,
      fst (Legacy.getInstallCommand (Some "pnpm")
             (allDependencies (Some "chakraui") (Some ["prisma"])) s) =
      Returns "pnpm install @chakra-ui/react @emotion/react@^11 @emotion/styled@^11 framer-motion@^6 prisma")
  ∧ getInstallCommand (Some "pnpm") "" = "pnpm add "
  ∧ getInstallCommand (Some "yarn") "" = "yarn add ".
Proof.
  split; [by vm_compute|]. split; [|split; by vm_compute].
  intros s. rewrite legacy_getInstallCommand_result. by vm_compute.
Qed.

(** ** The dependency string *)

Lemma getCssDependencies_entry (css : option string) :
  getCssDependencies css = entry (Js.text css).
Proof.
  unfold getCssDependencies, entry, property.
  destruct (packageDependencies !! Js.text css) as [deps|]; [|done].
  by destruct deps.
Qed.

Lemma foldl_entries (acc : string) (services : list string) :
  Forall (fun b => is_Some (packageDependencies !! b)) services ->
  foldl (fun deps service =>
           deps +:+ Js.text (packageDependencies !! service)) acc services =
  acc +:+ foldr (fun b rest => entry b +:+ rest) "" services.
Proof.
  intros H. revert acc.
  induction H as [|b services [v Hv] _ IH]; intros acc; simpl.
  - by rewrite append_nil_r.
  - rewrite IH. unfold entry at 2. rewrite Hv. simpl.
    by rewrite append_assoc.
Qed.

Lemma getBackendServicesDependencies_entries (services : list string) :
  Forall (fun b => is_Some (packageDependencies !! b)) services ->
  getBackendServicesDependencies (Some services) =
    foldr (fun b rest => entry b +:+ rest) "" services.
Proof.
  intros H. unfold getBackendServicesDependencies.
  destruct services as [|b services]; [done|].
  by rewrite (foldl_entries "" _ H).
Qed.

(** A service the table does not have adds the text ["undefined"]. *)
Lemma unknown_service_undefined :
  getBackendServicesDependencies (Some ["prisma"; "redis"]) =
    "prismaundefined".
Proof. by vm_compute. Qed.

(** C5, the claim as stated, fails: for the choices Chakra UI and Prisma
    the dependency string has a space that the concatenation of the two
    table entries lacks. *)
Lemma allDependencies_not_concatenation :
  allDependencies (Some "chakraui") (Some ["prisma"]) ≠
    concatenationOfEntries "chakraui" ["prisma"].
Proof. by vm_compute. Qed.

(** C5, amended: for every CSS choice (in the table or not, or none made)
    and every list of backend choices that the table has, the dependency
    string is the entry of the CSS choice, empty for a choice outside the
    table, then one space, then the entries of the backend choices one
    after another with nothing between them. *)
Theorem allDependencies_entries (css : option string)
    (backends : list string) :
  Forall (fun b => is_Some (packageDependencies !! b)) backends ->
  allDependencies css (Some backends) =
    entry (Js.text css) +:+ " " +:+
    foldr (fun b rest => entry b +:+ rest) "" backends.
Proof.
  intros H. unfold allDependencies. rewrite join_pair.
  by rewrite getCssDependencies_entry,
    (getBackendServicesDependencies_entries _ H).
Qed.

Lemma allDependencies_entries_witness :
  allDependencies (Some "none") (Some ["prisma"; "supabase"]) =
    entry "none" +:+ " " +:+ (entry "prisma" +:+ entry "supabase" +:+ "").
Proof.
  apply (allDependencies_entries (Some "none") ["prisma"; "supabase"]).
  repeat constructor; by eexists.
Defined.

(** ** Running procedures *)

Lemma bind_assoc {A B C} (m : Proc A) (k : A -> Proc B) (h : B -> Proc C) s :
  bind (bind m k) h s = bind m (fun a => bind (k a) h) s.
Proof. unfold bind. by destruct (m s) as [[a|e|c] s']. Qed.

Lemma commands_app (t u : list Event) :
  commands (t ++ u) = commands t ++ commands u.
Proof. apply omap_app. Qed.

Lemma commands_snoc (t : list Event) (e : Event) :
  commands (t ++ [e]) =
    commands t ++ match e with ExecSync cmd => [cmd] | _ => [] end.
Proof. rewrite commands_app. by destruct e. Qed.

(** ** The install command of a run *)

Lemma allDependencies_nonempty css backends :
  allDependencies css backends ≠ "".
Proof.
  unfold allDependencies. rewrite join_pair.
  by destruct (getCssDependencies css).
Qed.

Lemma installDependencies_commands (env : Env) (s : State) :
  let a := dependencyAnswers env in
  commands (trace (snd (installDependencies env s))) =
    commands (trace s) ++
    [getInstallCommand (packageManager a)
       (allDependencies (cssStyling a) (backendServices a))].
Proof.
  intros a. unfold installDependencies. fold a.
  unfold execSync, bind, emit, console_log, emit, setSelectedDependencies,
    setDisk, modify, get, ret, throw. simpl.
  destruct (shell env _ _ _) as [d [|]]; simpl;
    by rewrite !commands_snoc, !app_nil_r.
Qed.

(** C9: whatever the answers to the prompts, the dependency string given
    to [getInstallCommand] is two strings joined by one space, so it has at
    least one character and is not the empty string; the command built from
    it has the verb ["install"], never ["add"], and it is the one command
    [installDependencies] executes. *)
Theorem install_verb_always_install (env : Env) (s : State) :
  let a := dependencyAnswers env in
  let deps := allDependencies (cssStyling a) (backendServices a) in
  deps = getCssDependencies (cssStyling a) +:+ " " +:+
         getBackendServicesDependencies (backendServices a)
  ∧ deps ≠ ""
  ∧ (1 <= String.length deps)%nat
  ∧ getInstallCommand (packageManager a) deps =
      Js.text (packageManager a) +:+ " install " +:+ deps
  ∧ commands (trace (snd (installDependencies env s))) =
      commands (trace s) ++
      [Js.text (packageManager a) +:+ " install " +:+ deps].
Proof.
  intros a deps.
  assert (Hne : deps ≠ "") by apply allDependencies_nonempty.
  split; [done|]. split; [done|].
  split; [destruct deps; [done|simpl; lia]|].
  split; [by apply getInstallCommand_nonempty|].
  rewrite installDependencies_commands. fold a deps.
  by rewrite (getInstallCommand_nonempty _ _ Hne).
Qed.

(** ** Paths *)

Lemma plain_lacks (seg : string) :
  Path.plain seg = true -> Js.lacks "/" seg = true.
Proof. unfold Path.plain. intros H. by apply andb_prop in H as [_ H]. Qed.

Lemma plain_kept (seg : string) :
  Path.plain seg = true ->
  String.eqb seg "" || String.eqb seg "." = false ∧ String.eqb seg ".." = false.
Proof.
  unfold Path.plain. intros H.
  apply andb_prop in H as [H _]. apply andb_prop in H as [H H3].
  apply andb_prop in H as [H1 H2].
  apply negb_true_iff in H1, H2, H3. by rewrite H1, H2, H3.
Qed.

Lemma join_cons (sep x y : string) (l : list string) :
  Js.join sep (x :: y :: l) = x +:+ sep +:+ Js.join sep (y :: l).
Proof. done. Qed.


Lemma split_join (segs : list string) :
  Forall (fun seg => Js.lacks "/" seg = true) segs -> segs ≠ [] ->
  Js.split "/" (Js.join "/" segs) = segs.
Proof.
  induction 1 as [|x l Hx Hl IH]; [done|]. intros _.
  destruct l as [|y l]; [by apply split_lacks|].
  rewrite join_cons. change ("/" +:+ ?t) with (String "/" t).
  rewrite (split_append _ _ _ Hx). by rewrite IH.
Qed.

Lemma normalizeString_plain (above : bool) (segs res rest : list string) :
  Forall (fun seg => Path.plain seg = true) segs ->
  Path.normalizeString above res (segs ++ rest) =
    Path.normalizeString above (rev segs ++ res) rest.
Proof.
  intros H. revert res.
  induction H as [|x l Hx _ IH]; intros res; [done|].
  destruct (plain_kept _ Hx) as [H1 H2].
  simpl. rewrite H1, H2, IH. by rewrite <- app_assoc.
Qed.

Lemma join_plain_nonempty (segs : list string) :
  Forall (fun seg => Path.plain seg = true) segs -> segs ≠ [] ->
  String.eqb (Js.join "/" segs) "" = false.
Proof.
  intros H Hne. destruct H as [|x l Hx _]; [done|].
  destruct x as [|c x]; [done|]. by destruct l.
Qed.


(** An absolute path of plain segments names the place of those
    segments. *)
Lemma resolve_absolute (dir segs : list string) :
  Forall (fun seg => Path.plain seg = true) segs ->
  Path.resolve dir (Path.absolute segs) = segs.
Proof.
  intros H. unfold Path.resolve, Path.absolute.
  change ("/" +:+ ?t) with (String "/" t). simpl.
  destruct segs as [|x l]; [done|].
  rewrite split_join; [|by eapply Forall_impl; [exact H|apply plain_lacks]|done].
  rewrite <- (app_nil_r (x :: l)) at 1.
  rewrite normalizeString_plain by done.
  rewrite app_nil_r. cbn [Path.normalizeString]. apply rev_involutive.
Qed.




(** ** What procedures leave alone *)

Section Frame.
Context {X : Type} (f : State -> X).

Lemma preserves_ret {A} (a : A) : preserves f (ret a).
Proof. by intros s. Qed.

Lemma preserves_throw {A} (e : Error) : preserves f (@throw A e).
Proof. by intros s. Qed.

Lemma preserves_exit {A} (c : Z) : preserves f (@exit A c).
Proof. by intros s. Qed.

Lemma preserves_get : preserves f get.
Proof. by intros s. Qed.

Lemma preserves_modify (g : State -> State) :
  (forall s, f (g s) = f s) -> preserves f (modify g).
Proof. intros H s. apply H. Qed.

Lemma preserves_bind {A B} (m : Proc A) (k : A -> Proc B) :
  preserves f m -> (forall a, preserves f (k a)) -> preserves f (bind m k).
Proof.
  intros Hm Hk s. unfold bind. specialize (Hm s).
  destruct (m s) as [[a|e|c] s']; simpl in *; [|done..].
  by rewrite Hk.
Qed.

Lemma preserves_when (b : bool) (m : Proc unit) :
  preserves f m -> preserves f (when b m).
Proof. intros H. destruct b; [done|]. apply preserves_ret. Qed.

Lemma preserves_forEach {A} (l : list A) (k : A -> Proc unit) :
  (forall a, preserves f (k a)) -> preserves f (forEach l k).
Proof.
  intros H. induction l as [|a l IH]; [apply preserves_ret|].
  simpl. apply preserves_bind; [apply H|by intros _].
Qed.
End Frame.

(** One step of a proof that a procedure leaves an observation alone; the
    changes of the state itself are left to [tac]. *)
Ltac frame_step tac :=
  first
    [ apply preserves_ret | apply preserves_throw | apply preserves_exit
    | apply preserves_get
    | apply preserves_modify; intros ?; tac
    | apply preserves_bind; [|intros ?]
    | apply preserves_when
    | apply preserves_forEach; intros ?
    | match goal with
      | |- preserves _ (if ?b then _ else _) => destruct b
      | |- preserves _ (match ?x with _ => _ end) => destruct x
      end
    | progress cbv zeta
    | progress unfold chdir, rmSync, existsSync, includes ].

Ltac frame tac := repeat frame_step tac.

Lemma cloneRepo_path env : preserves projectPath (cloneRepo env).
Proof. unfold cloneRepo. frame done. Qed.

Lemma installDependencies_path env :
  preserves projectPath (installDependencies env).
Proof. unfold installDependencies. frame done. Qed.

Lemma postInstall_path env : preserves projectPath (postInstall env).
Proof. unfold postInstall. frame done. Qed.

Lemma furnish_path env : preserves projectPath (furnish env).
Proof.
  unfold furnish, cleanUp, success.
  frame done.
Qed.

(** ** The stages of [init] *)

Lemma init_stages (env : Env) (s : State) :
  init env s =
    match preflight env s with
    | (Returns _, s1) =>
        try_catch (bind (cloneRepo env) (fun _ => furnish env)) rollback s1
    | (Throws e, s1) => (Throws e, s1)
    | (Exits c, s1) => (Exits c, s1)
    end.
Proof.
  unfold init, preflight, bind.
  destruct (startUp s) as [[[]|e|c] s0]; [|done..].
  destruct (validateNodeVersion env s0) as [[[]|e|c] s1]; [|done..].
  destruct (validateAppName env s1) as [[[]|e|c] s2]; [|done..].
  destruct (setProjectPath s2) as [[[]|e|c] s3]; [|done..].
  by destruct (validateProjectPath s3) as [[[]|e|c] s4].
Qed.

Lemma try_stages (env : Env) (s1 : State) :
  try_catch (bind (cloneRepo env) (fun _ => furnish env)) rollback s1 =
    match cloneRepo env s1 with
    | (Returns _, s2) =>
        match furnish env s2 with
        | (Throws e, s3) => rollback e s3
        | r => r
        end
    | (Throws e, s2) => rollback e s2
    | (Exits c, s2) => (Exits c, s2)
    end.
Proof.
  unfold try_catch, bind.
  by destruct (cloneRepo env s1) as [[[]|e|c] s2].
Qed.



(** ** The handler *)




(** ** The pre-flight steps *)

Lemma logs_logs (es es' : list Event) (s : State) :
  logs es' (logs es s) = logs (es ++ es') s.
Proof. unfold logs. simpl. by rewrite app_assoc. Qed.

Lemma forEach_prints {A} (l : list A) (g : A -> Printed) (to : Stream)
    (s : State) :
  forEach l (fun x => emit (Console to (g x))) s =
    (Returns tt, logs (map (fun x => Console to (g x)) l) s).
Proof.
  revert s. induction l as [|x l IH]; intros s.
  - unfold logs. simpl. rewrite app_nil_r. by destruct s.
  - simpl. unfold bind, emit, modify at 1. rewrite IH.
    unfold logged. by rewrite logs_logs.
Qed.

(** The pre-flight steps, case by case, from the start of a run. *)
Lemma preflight_cases (env : Env) :
  let s0 := logged (Console Stdout (Figlet START_UP_TEXT)) (initial env) in
  let name := argument env in
  let path := Path.join [Path.absolute (startDir env); name] in
  preflight env (initial env) =
    if Js.lessThan (nodeMajor env) 14 then
      (Exits 1,
       logged (Console Stderr (Text (nodeVersionMessage (nodeVersion env)))) s0)
    else if (length (argv env) <? 3)%nat then (Exits 1, logs usage s0)
    else if String.eqb name "." then
      (Returns tt,
       withProjectPath path (withIsCurrentDir true (withProjectName name s0)))
    else if negb (validForNewPackages (validate env name)) then
      (Exits 1,
       logs (Validate name :: complaints name (validate env name))
         (withProjectName name s0))
    else if present (Path.resolve (startDir env) path) (startDisk env) then
      (Exits 1,
       logs [Validate name; ExistsSync path; directoryExists]
         (withProjectPath path (withProjectName name s0)))
    else
      (Returns tt,
       logs [Validate name; ExistsSync path]
         (withProjectPath path (withProjectName name s0))).
Proof.
  intros s0 name path.
  unfold preflight, startUp, console_log.
  unfold bind at 1, emit, modify at 1. fold s0.
  unfold validateNodeVersion.
  destruct (Js.lessThan (nodeMajor env) 14); [done|].
  unfold bind at 1, ret at 1.
  unfold validateAppName. fold (argument env). fold name.
  destruct (length (argv env) <? 3)%nat; [done|].
  unfold when at 1.
  unfold bind at 1, ret at 1.
  unfold bind at 1, setProjectName at 1, modify at 1.
  destruct (String.eqb name ".") eqn:Hdot.
  - done.
  - unfold validateProjectPath, setProjectPath.
    destruct (validForNewPackages (validate env name)); simpl.
    + unfold bind, emit, modify, get, ret, existsSync, when. simpl.
      fold path.
      by destruct (present _ _).
    + unfold console_error, console_log, console_warn.
      unfold bind at 1. unfold bind at 1, emit at 1, modify at 1.
      unfold bind at 1, emit at 1, modify at 1.
      unfold bind at 1, emit at 1, modify at 1.
      unfold bind at 1. rewrite forEach_prints.
      unfold bind at 1. rewrite forEach_prints.
      unfold exit, complaints, logged. rewrite !logs_logs.
      done.
Qed.

(** ** The environment check *)

Lemma lacks_dot_numeral (n : N) : Js.lacks "." (Js.numeral n) = true.
Proof.
  unfold Js.numeral. generalize (N.to_uint n). intros d.
  induction d; simpl; auto.
Qed.

Lemma toNumber_numeral (n : N) : Js.toNumber (Js.numeral n) = Some n.
Proof.
  unfold Js.toNumber, Js.numeral. rewrite NilEmpty.usu. simpl.
  by rewrite DecimalN.Unsigned.of_to.
Qed.

Lemma nodeMajor_numeral (env : Env) (major : N) (rest : string) :
  nodeVersion env = Js.numeral major +:+ "." +:+ rest ->
  nodeMajor env = Js.numeral major.
Proof.
  intros H. unfold nodeMajor. rewrite H.
  change ("." +:+ rest) with (String "." rest).
  by rewrite split_append by apply lacks_dot_numeral.
Qed.

Lemma lessThan_numeral (major n : N) :
  Js.lessThan (Js.numeral major) n = (major <? n)%N.
Proof. unfold Js.lessThan. by rewrite toNumber_numeral. Qed.

(** C7: the environment check reads the version string of the runtime;
    when its major component is below 14 it prints the diagnostic on the
    error stream and exits with status 1, leaving disk and working
    directory as they were and removing nothing; for a major component of
    14 or more it returns and the run goes on. *)
Theorem node_version_check (env : Env) (major : N) (rest : string)
    (s : State) :
  nodeVersion env = Js.numeral major +:+ "." +:+ rest ->
  validateNodeVersion env s =
    (if (major <? 14)%N
     then (Exits 1,
           logged (Console Stderr
                     (Text (nodeVersionMessage (nodeVersion env)))) s)
     else (Returns tt, s))
  ∧ ((major < 14)%N ->
     run env =
       (Exits 1,
        logs [Console Stdout (Figlet START_UP_TEXT);
              Console Stderr (Text (nodeVersionMessage (nodeVersion env)))]
          (initial env))).
Proof.
  intros H. pose proof (nodeMajor_numeral _ _ _ H) as Hm.
  split.
  - unfold validateNodeVersion. rewrite Hm, lessThan_numeral.
    by destruct (major <? 14)%N.
  - intros Hlt%N.ltb_lt. unfold run. rewrite init_stages.
    pose proof (preflight_cases env) as Hc. simpl in Hc. rewrite Hc.
    by rewrite Hm, lessThan_numeral, Hlt.
Qed.

Lemma node_version_check_witness :
  validateNodeVersion (Demo.env "12.22.1" "my-app" None) (initial (Demo.env "12.22.1" "my-app" None)) =
    (Exits 1,
     logged (Console Stderr (Text (nodeVersionMessage "12.22.1")))
       (initial (Demo.env "12.22.1" "my-app" None)))
  ∧ validateNodeVersion (Demo.env "14.0.0" "my-app" None) (initial (Demo.env "14.0.0" "my-app" None)) =
    (Returns tt, initial (Demo.env "14.0.0" "my-app" None)).
Proof.
  split.
  - apply (node_version_check (Demo.env "12.22.1" "my-app" None) 12 "22.1").
    reflexivity.
  - apply (node_version_check (Demo.env "14.0.0" "my-app" None) 14 "0.0").
    reflexivity.
Defined.

(** ** Current-directory mode *)

Lemma argument_given (env : Env) (name : string) :
  argv env !! 2%nat = Some name ->
  argument env = name ∧ (length (argv env) <? 3)%nat = false.
Proof.
  intros H. unfold argument. rewrite H. split; [done|].
  apply Nat.ltb_ge. apply lookup_lt_Some in H. lia.
Qed.




(** ** Rollback *)

Lemma join_absolute (segs : list string) (rest : list string) :
  Path.isAbsolute (Path.join (Path.absolute segs :: rest)) = true.
Proof.
  unfold Path.join. rewrite filter_cons_True by done.
  assert (exists t, Js.join "/"
            (Path.absolute segs :: filter (fun a => a ≠ "") rest) =
          String "/" t) as [t ->].
  { unfold Path.absolute. destruct (filter _ rest); by eexists. }
  unfold Path.normalize.
  assert (String.eqb (String "/" t) "" = false) as -> by done.
  assert (Path.isAbsolute (String "/" t) = true) as -> by done.
  by destruct (String.eqb _ "").
Qed.

Lemma resolve_anywhere (dir dir' : list string) (p : string) :
  Path.isAbsolute p = true -> Path.resolve dir p = Path.resolve dir' p.
Proof. unfold Path.resolve. by intros ->. Qed.

(** When the pre-flight steps return, the project path is the join of the
    working directory and the argument, and nothing else has changed. *)
Lemma preflight_returns (env : Env) :
  fst (preflight env (initial env)) = Returns tt ->
  projectPath (preflighted env) =
    Some (Path.join [Path.absolute (startDir env); argument env])
  ∧ cwd (preflighted env) = startDir env
  ∧ disk (preflighted env) = startDisk env
  ∧ commands (trace (preflighted env)) = [].
Proof.
  unfold preflighted.
  pose proof (preflight_cases env) as Hc. simpl in Hc. rewrite Hc.
  destruct (Js.lessThan _ _); [done|].
  destruct (_ <? _)%nat; [done|].
  destruct (String.eqb _ _); [done|].
  destruct (validForNewPackages _); [|done]. simpl.
  by destruct (present _ _).
Qed.









(** ** The exit status *)

(** A failed pre-flight check ends the run with status 1, and the disk is
    as it was. *)
Lemma validation_failure_exit_status (env : Env) (c : Z) :
  fst (preflight env (initial env)) = Exits c ->
  c = 1
  ∧ exitCode env (fst (run env)) = 1
  ∧ disk (snd (run env)) = startDisk env.
Proof.
  unfold run. rewrite init_stages.
  pose proof (preflight_cases env) as Hc. simpl in Hc. rewrite Hc.
  destruct (Js.lessThan _ _); [by intros [= <-]|].
  destruct (_ <? _)%nat; [by intros [= <-]|].
  destruct (String.eqb _ _); [done|].
  destruct (validForNewPackages _); simpl; [|by intros [= <-]].
  destruct (present _ _); [by intros [= <-]|done].
Qed.



(** C3 (evaluation of the code where it departs from the claim): in the
    sample run where the install command ends with a non-zero status, the
    exception reaches the handler, the project is removed, [init()] is
    fulfilled and the process ends with status 0. *)
Theorem caught_exception_exit_status :
  fst (furnish (Demo.env "18.12.0" "my-app" (Some "pnpm install"))
         (cloned (Demo.env "18.12.0" "my-app" (Some "pnpm install")))) =
    Throws (ChildProcessError
      "pnpm install @chakra-ui/react @emotion/react@^11 @emotion/styled@^11 framer-motion@^6 prisma")
  ∧ fst (run (Demo.env "18.12.0" "my-app" (Some "pnpm install"))) = Returns tt
  ∧ exitCode (Demo.env "18.12.0" "my-app" (Some "pnpm install"))
      (fst (run (Demo.env "18.12.0" "my-app" (Some "pnpm install")))) = 0.
Proof. by vm_compute. Qed.

(** ** The commands of a run *)

Lemma executed_logged (e : Event) (s : State) :
  executed (logged e s) =
    executed s ++ match e with ExecSync cmd => [cmd] | _ => [] end.
Proof. apply commands_snoc. Qed.

(** Closes the goals [frame] leaves for [executed]: events that are no
    command. *)
Ltac quiet := first [done | by rewrite executed_logged, app_nil_r].

Lemma preflight_quiet (env : Env) : preserves executed (preflight env).
Proof.
  unfold preflight, startUp, validateNodeVersion, validateAppName,
    setProjectPath, validateProjectPath, console_log, console_error,
    console_warn.
  frame quiet.
Qed.

Lemma enter_quiet :
  preserves executed (bind get (fun s => chdir (projectPath s))).
Proof. frame quiet. Qed.

Lemma finish_quiet : preserves executed (bind cleanUp (fun _ => success)).
Proof. unfold cleanUp, success, console_log. frame quiet. Qed.

Lemma rollback_quiet (e : Error) : preserves executed (rollback e).
Proof.
  unfold rollback, deleteDirectory, console_log, console_error.
  frame quiet.
Qed.

Lemma cloneRepo_commands (env : Env) (s : State) :
  executed (snd (cloneRepo env s)) =
    executed s ++ [cloneCommand (projectPath s)].
Proof.
  unfold cloneRepo, execSync, console_log, emit, setDisk, bind, get, modify,
    ret, throw. simpl.
  destruct (shell env _ _ _) as [d [|]]; unfold executed; simpl;
    by rewrite !commands_snoc, app_nil_r.
Qed.

Lemma installDependencies_selected (env : Env) (s : State) :
  selectedDependencies (snd (installDependencies env s)) =
    dependencyAnswers env.
Proof.
  unfold installDependencies, execSync, console_log, emit,
    setSelectedDependencies, setDisk, bind, get, modify, ret, throw. simpl.
  by destruct (shell env _ _ _) as [d [|]].
Qed.

(** A [try] whose last steps and whose handler give no command has given,
    at its end, the commands of its first step. *)
Lemma try_executed (m last : Proc unit) (h : Error -> Proc unit) (s : State) :
  preserves executed last -> (forall e, preserves executed (h e)) ->
  executed (snd (try_catch (bind m (fun _ => last)) h s)) =
    executed (snd (m s)).
Proof.
  intros Hlast Hh. unfold try_catch, bind.
  destruct (m s) as [[[]|e|c] s1]; simpl; [|apply Hh|done].
  specialize (Hlast s1).
  destruct (last s1) as [[[]|e|c] s2]; simpl in *; [done| |done].
  by rewrite Hh.
Qed.

Lemma postInstall_commands (env : Env) (s : State) (services : list string) :
  backendServices (selectedDependencies s) = Some services ->
  "prisma" ∈ services ->
  exists rest,
    executed (snd (postInstall env s)) =
      executed s ++
      runScript (packageManager (selectedDependencies s)) "init:prisma" ::
      rest
    ∧ Forall
        (fun c =>
           c ∈ supabaseCommands env (packageManager (selectedDependencies s)))
        rest.
Proof.
  intros Hs Hprisma.
  unfold postInstall, includes, execSync, when, console_log, emit, setDisk,
    bind, get, modify, ret, throw. simpl. rewrite Hs. simpl.
  rewrite (bool_decide_eq_true_2 _ Hprisma).
  destruct (bool_decide ("supabase" ∈ services));
    destruct (isCreateSupabaseProject env);
    repeat match goal with
      | |- context [shell env ?c ?d ?k] =>
          destruct (shell env c d k) as [? []]; simpl
      end;
    eexists; (split;
      [ unfold executed; simpl;
        rewrite !commands_snoc, ?app_nil_r, <- ?app_assoc; simpl;
        reflexivity
      | unfold supabaseCommands; repeat constructor; set_solver ]).
Qed.

(** The commands of a whole run, by the stage it reaches. *)
Lemma run_executed (env : Env) :
  executed (snd (run env)) =
    match fst (preflight env (initial env)) with
    | Returns _ =>
        match fst (cloneRepo env (preflighted env)) with
        | Returns _ =>
            match fst (bind get (fun s => chdir (projectPath s))
                         (cloned env)) with
            | Returns _ =>
                match fst (installDependencies env (entered env)) with
                | Returns _ =>
                    executed
                      (snd (postInstall env
                              (snd (installDependencies env (entered env)))))
                | _ => executed (snd (installDependencies env (entered env)))
                end
            | _ => executed (cloned env)
            end
        | _ => executed (cloned env)
        end
    | _ => []
    end.
Proof.
  unfold run. rewrite init_stages. unfold entered, cloned, preflighted.
  pose proof (preflight_quiet env (initial env)) as Hq.
  destruct (preflight env (initial env)) as [[[]|e|c] s1]; simpl in *;
    [|done..].
  rewrite try_stages.
  destruct (cloneRepo env s1) as [[[]|e|c] s2]; simpl;
    [|by rewrite rollback_quiet|done].
  unfold furnish. unfold bind at 1.
  pose proof (enter_quiet s2) as Hq2.
  destruct (bind get (fun s => chdir (projectPath s)) s2)
    as [[[]|e|c] s3]; simpl in *; [|by rewrite rollback_quiet|done].
  unfold bind at 1.
  destruct (installDependencies env s3) as [[[]|e|c] s4]; simpl;
    [|by rewrite rollback_quiet|done].
  unfold bind at 1.
  destruct (postInstall env s4) as [[[]|e|c] s5]; simpl;
    [|by rewrite rollback_quiet|done].
  pose proof (finish_quiet s5) as Hq5.
  destruct (bind cleanUp (fun _ => success) s5) as [[[]|e|c] s6];
    simpl in *; [done| |done].
  by rewrite rollback_quiet.
Qed.

(** ** The Prisma generator *)

(** For the package managers the prompt offers, the generator invocation
    differs from every other command of a run. *)
Lemma generator_distinct (env : Env) (pm : string) (path : option string)
    (deps : string) :
  pm ∈ ["pnpm"; "npm"; "yarn"] ->
  runScript (Some pm) "init:prisma" ≠ cloneCommand path
  ∧ runScript (Some pm) "init:prisma" ≠ pm +:+ " install " +:+ deps
  ∧ runScript (Some pm) "init:prisma" ∉ supabaseCommands env (Some pm).
Proof.
  intros Hpm. unfold supabaseCommands.
  rewrite !not_elem_of_cons.
  repeat (apply elem_of_cons in Hpm as [->|Hpm]);
    [..|by apply elem_of_nil in Hpm];
    repeat split; try apply not_elem_of_nil;
    intros H; vm_compute in H; discriminate H.
Qed.

(** C8: when the user has picked one of the offered package managers and
    "prisma" is among the selected backend services, a run in which the
    dependency install command has completed executes the generator
    invocation [<pm> run init:prisma] exactly once, right after the install
    command; a run in which the install command has not completed does not
    execute it at all. *)
Theorem prisma_generator_once (env : Env) (pm : string)
    (services : list string) :
  packageManager (dependencyAnswers env) = Some pm ->
  pm ∈ ["pnpm"; "npm"; "yarn"] ->
  backendServices (dependencyAnswers env) = Some services ->
  "prisma" ∈ services ->
  let generator := pm +:+ " run init:prisma" in
  let clone :=
    cloneCommand
      (Some (Path.join [Path.absolute (startDir env); argument env])) in
  let install :=
    pm +:+ " install " +:+
    allDependencies (cssStyling (dependencyAnswers env)) (Some services) in
  (installed env ->
     exists rest,
       executed (snd (run env)) = [clone; install; generator] ++ rest
       ∧ (generator ∉ [clone; install])
       ∧ (generator ∉ rest))
  ∧ ((¬ installed env) -> generator ∉ executed (snd (run env))).
Proof.
  intros Hpm Hoffered Hservices Hprisma generator clone install.
  pose proof (generator_distinct env pm) as Hdistinct.
  assert (Hinstall : forall s,
    executed (snd (installDependencies env s)) = executed s ++ [install]).
  { intros s. unfold executed. rewrite installDependencies_commands.
    rewrite Hpm, Hservices.
    by rewrite getInstallCommand_nonempty by apply allDependencies_nonempty. }
  assert (Hfresh : generator ∉ [clone; install]).
  { destruct (Hdistinct (Some (Path.join
        [Path.absolute (startDir env); argument env]))
      (allDependencies (cssStyling (dependencyAnswers env)) (Some services))
      Hoffered) as (H1 & H2 & _).
    rewrite !not_elem_of_cons. repeat split; [done..|apply not_elem_of_nil]. }
  rewrite run_executed. split.
  - intros (H1 & H2 & H3 & H4). rewrite H1, H2, H3, H4.
    destruct (preflight_returns env H1) as (Hpath & _ & _ & Hnone).
    destruct (postInstall_commands env
                (snd (installDependencies env (entered env))) services)
      as (rest & Hrest & Hall); [|done|].
    { by rewrite installDependencies_selected. }
    rewrite installDependencies_selected, Hpm in Hrest, Hall.
    exists rest. split; [|split; [done|]].
    + rewrite Hrest, Hinstall. unfold entered. rewrite enter_quiet.
      unfold cloned. rewrite cloneRepo_commands, Hpath.
      fold (executed (preflighted env)) in Hnone. by rewrite Hnone.
    + intros Hin. rewrite Forall_forall in Hall.
      destruct (Hdistinct None "" Hoffered) as (_ & _ & Hsupabase).
      by apply Hsupabase, Hall.
  - intros Hnot.
    assert (Hcloned : fst (preflight env (initial env)) = Returns tt ->
                      executed (cloned env) = [clone]).
    { intros H1. destruct (preflight_returns env H1) as (Hpath & _ & _ & Hnone).
      unfold cloned. rewrite cloneRepo_commands, Hpath.
      fold (executed (preflighted env)) in Hnone. by rewrite Hnone. }
    assert (Hone : generator ∉ [clone]).
    { intros Hin%list_elem_of_singleton. apply Hfresh.
      rewrite Hin. apply list_elem_of_here. }
    destruct (fst (preflight env (initial env))) as [[]|e|c] eqn:H1;
      [|apply not_elem_of_nil..].
    specialize (Hcloned eq_refl).
    destruct (fst (cloneRepo env (preflighted env))) as [[]|e|c] eqn:H2;
      [|by rewrite Hcloned..].
    destruct (fst (bind get (fun s => chdir (projectPath s)) (cloned env)))
      as [[]|e|c] eqn:H3; [|by rewrite Hcloned..].
    assert (Hentered : executed (entered env) = [clone]).
    { unfold entered. by rewrite enter_quiet. }
    destruct (fst (installDependencies env (entered env)))
      as [[]|e|c] eqn:H4; [|by rewrite Hinstall, Hentered..].
    by destruct Hnot.
Qed.

Lemma prisma_generator_once_witness :
  (exists rest,
     executed (snd (run (Demo.env "18.12.0" "my-app" None))) =
       [cloneCommand (Some (Path.join
          [Path.absolute ["home"; "u"; "work"]; "my-app"]));
        "pnpm" +:+ " install " +:+
          allDependencies (Some "chakraui") (Some ["prisma"]);
        "pnpm" +:+ " run init:prisma"] ++ rest
     ∧ ("pnpm" +:+ " run init:prisma" ∉
         [cloneCommand (Some (Path.join
            [Path.absolute ["home"; "u"; "work"]; "my-app"]));
          "pnpm" +:+ " install " +:+
            allDependencies (Some "chakraui") (Some ["prisma"])])
     ∧ ("pnpm" +:+ " run init:prisma" ∉ rest))
  ∧ "pnpm" +:+ " run init:prisma" ∉
      executed (snd (run (Demo.env "18.12.0" "my-app" (Some "pnpm install")))).
Proof.
  split.
  - apply (prisma_generator_once (Demo.env "18.12.0" "my-app" None)
             "pnpm" ["prisma"]);
      [reflexivity | repeat constructor | reflexivity | repeat constructor |].
    repeat split; vm_compute; reflexivity.
  - apply (prisma_generator_once
             (Demo.env "18.12.0" "my-app" (Some "pnpm install"))
             "pnpm" ["prisma"]);
      [reflexivity | repeat constructor | reflexivity | repeat constructor |].
    intros (_ & _ & _ & H). vm_compute in H. discriminate H.
Defined.


(** * Further properties *)

(** ** The install command, for every input *)

(** [getInstallCommand] returns an ["add"] command exactly for ['yarn'] or
    ['pnpm'] with the empty dependency string, and the ["install"] command
    with the dependency string in every other case: for ['npm'], for a
    package manager it does not know, and for none at all. *)
Theorem getInstallCommand_verbs (pm : option string) (deps : string) :
  (getInstallCommand pm deps = Js.text pm +:+ " add " +:+ deps
   <-> (pm = Some "yarn" ∨ pm = Some "pnpm") ∧ deps = "")
  ∧ (getInstallCommand pm deps = Js.text pm +:+ " install " +:+ deps
     <-> ¬ ((pm = Some "yarn" ∨ pm = Some "pnpm") ∧ deps = "")).
Proof.
  assert (Hverbs : Js.text pm +:+ " add " +:+ deps ≠
                   Js.text pm +:+ " install " +:+ deps).
  { intros H. apply String.app_inj in H. discriminate H. }
  assert (Hcmd : getInstallCommand pm deps =
            if decide ((pm = Some "yarn" ∨ pm = Some "pnpm") ∧ deps = "")
            then Js.text pm +:+ " add " +:+ deps
            else Js.text pm +:+ " install " +:+ deps).
  { rewrite getInstallCommand_spec.
    destruct (decide _) as [[Hpm ->]|Hnot].
    - by rewrite (bool_decide_eq_true_2 _ Hpm).
    - destruct (decide (pm = Some "yarn" ∨ pm = Some "pnpm")) as [Hpm|Hpm].
      + rewrite (bool_decide_eq_true_2 _ Hpm).
        rewrite bool_decide_eq_false_2; [done|].
        intros Hdeps. by apply Hnot.
      + by rewrite (bool_decide_eq_false_2 _ Hpm). }
  rewrite Hcmd. destruct (decide _) as [HP|HP].
  - split; split; [done | done | |].
    + intros H. by destruct (Hverbs H).
    + intros H. by destruct (H HP).
  - split; split; [| | done | done].
    + intros H. by destruct (Hverbs (eq_sym H)).
    + intros H. by destruct (HP H).
Qed.

(** The earlier revision returns the same command for every input; it
    prints the dependency string first, but only in the cases ['yarn'] and
    ['pnpm'], and changes nothing else. *)
Theorem legacy_getInstallCommand_same (pm : option string) (deps : string)
    (s : State) :
  Legacy.getInstallCommand pm deps s =
    (Returns (getInstallCommand pm deps),
     if bool_decide (pm = Some "yarn" ∨ pm = Some "pnpm")
     then logged (Console Stdout (Dependencies deps)) s
     else s).
Proof.
  unfold Legacy.getInstallCommand, getInstallCommand.
  destruct (decide (pm = Some "yarn" ∨ pm = Some "pnpm")) as [Hpm|Hpm].
  - rewrite (bool_decide_eq_true_2 _ Hpm).
    assert (exists n, pm = Some n ∧
              String.eqb n "yarn" || String.eqb n "pnpm" = true)
      as (n & -> & ->) by (destruct Hpm as [->| ->]; by eexists).
    unfold bind, console_log, emit, modify, ret.
    by destruct (negb (Js.truthy deps) && negb (String.eqb deps " ")).
  - rewrite (bool_decide_eq_false_2 _ Hpm).
    destruct pm as [pm|]; [|done].
    destruct (String.eqb_spec pm "yarn") as [->|_]; [by destruct Hpm; left|].
    destruct (String.eqb_spec pm "pnpm") as [->|_]; [by destruct Hpm; right|].
    done.
Qed.

(** ** The packages of the backend services *)

Lemma foldl_texts (acc : string) (services : list string) :
  foldl (fun deps service =>
           deps +:+ Js.text (packageDependencies !! service)) acc services =
  acc +:+ foldr (fun b rest => Js.text (packageDependencies !! b) +:+ rest)
            "" services.
Proof.
  revert acc. induction services as [|b services IH]; intros acc; simpl.
  - by rewrite append_nil_r.
  - by rewrite IH, append_assoc.
Qed.

Lemma getBackendServicesDependencies_texts (services : list string) :
  getBackendServicesDependencies (Some services) =
    foldr (fun b rest => Js.text (packageDependencies !! b) +:+ rest)
      "" services.
Proof.
  unfold getBackendServicesDependencies.
  destruct services as [|b services]; [done|].
  by rewrite foldl_texts.
Qed.


(** Supabase brings no package: its entry in the table is empty, so the
    dependency string is the same with and without it in the selection. *)
Theorem supabase_adds_nothing (css : option string) (services : list string) :
  allDependencies css (Some services) =
    allDependencies css (Some (filter (fun b => b ≠ "supabase") services)).
Proof.
  unfold allDependencies.
  rewrite !join_pair, !getBackendServicesDependencies_texts.
  do 2 f_equal.
  induction services as [|b services IH]; [done|].
  destruct (decide (b = "supabase")) as [->|Hb].
  - rewrite filter_cons_False by (intros H; by apply H). by simpl.
  - rewrite filter_cons_True by done. simpl. by rewrite IH.
Qed.

(** ** The pre-flight steps touch nothing *)

Lemma removed_logged (e : Event) (s : State) :
  removed (logged e s) =
    removed s ++ match e with RmSync p => [p] | _ => [] end.
Proof.
  unfold removed, removals, logged, logs. simpl.
  rewrite omap_app. by destruct e.
Qed.

(** Closes the goals [frame] leaves for [removed]: events that are no
    removal. *)
Ltac still := first [done | by rewrite removed_logged, app_nil_r].

Lemma preflight_disk (env : Env) : preserves disk (preflight env).
Proof.
  unfold preflight, startUp, validateNodeVersion, validateAppName,
    setProjectPath, validateProjectPath, console_log, console_error,
    console_warn.
  frame done.
Qed.

Lemma preflight_cwd (env : Env) : preserves cwd (preflight env).
Proof.
  unfold preflight, startUp, validateNodeVersion, validateAppName,
    setProjectPath, validateProjectPath, console_log, console_error,
    console_warn.
  frame done.
Qed.

Lemma preflight_removed (env : Env) : preserves removed (preflight env).
Proof.
  unfold preflight, startUp, validateNodeVersion, validateAppName,
    setProjectPath, validateProjectPath, console_log, console_error,
    console_warn.
  frame still.
Qed.

Lemma preflight_outcome (env : Env) :
  fst (preflight env (initial env)) = Returns tt
  ∨ fst (preflight env (initial env)) = Exits 1.
Proof.
  pose proof (preflight_cases env) as Hc. simpl in Hc. rewrite Hc.
  destruct (Js.lessThan _ _); [by right|].
  destruct (_ <? _)%nat; [by right|].
  destruct (String.eqb _ _); [by left|].
  destruct (validForNewPackages _); simpl; [|by right].
  destruct (present _ _); [by right|by left].
Qed.

(** Whatever the environment, the steps before the [try] block leave the
    disk and the working directory as they were, start no child process and
    remove nothing; they never throw, and when one of them refuses to go
    on, the run is over at once with exit status 1. *)
Theorem preflight_harmless (env : Env) :
  disk (preflighted env) = startDisk env
  ∧ cwd (preflighted env) = startDir env
  ∧ executed (preflighted env) = []
  ∧ removed (preflighted env) = []
  ∧ (fst (preflight env (initial env)) = Returns tt
     ∨ (fst (preflight env (initial env)) = Exits 1
        ∧ run env = (Exits 1, preflighted env)
        ∧ exitCode env (fst (run env)) = 1)).
Proof.
  unfold preflighted.
  rewrite preflight_disk, preflight_cwd, preflight_quiet, preflight_removed.
  do 4 (split; [done|]).
  destruct (preflight_outcome env) as [H|H]; [by left|right].
  split; [done|]. unfold run. rewrite init_stages.
  destruct (preflight env (initial env)) as [r s1]; simpl in *. by subst r.
Qed.

(** Without a project name on the command line the run prints the three
    lines of usage and exits with status 1; no name is validated and the
    disk is not asked. *)
Theorem missing_argument (env : Env) :
  Js.lessThan (nodeMajor env) 14 = false ->
  (length (argv env) < 3)%nat ->
  run env =
    (Exits 1,
     logs (Console Stdout (Figlet START_UP_TEXT) :: usage) (initial env)).
Proof.
  intros Hnode Hlen%Nat.ltb_lt. unfold run. rewrite init_stages.
  pose proof (preflight_cases env) as Hc. simpl in Hc.
  rewrite Hc, Hnode, Hlen. unfold logged. by rewrite logs_logs.
Qed.

Lemma missing_argument_witness :
  run Sample.bare =
    (Exits 1,
     logs (Console Stdout (Figlet START_UP_TEXT) :: usage)
       (initial Sample.bare)).
Proof. apply missing_argument; [reflexivity | simpl; lia]. Defined.

(** ** The resolved path of a plain name *)

Lemma split_joined_append (segs : list string) (tail : string) :
  Forall (fun seg => Js.lacks "/" seg = true) segs -> segs ≠ [] ->
  Js.split "/" (Js.join "/" segs +:+ String "/" tail) =
    segs ++ Js.split "/" tail.
Proof.
  induction 1 as [|x l Hx Hl IH]; [done|]. intros _.
  destruct l as [|y l]; [by apply split_append|].
  rewrite join_cons. change ("/" +:+ ?t) with (String "/" t).
  rewrite append_assoc, append_cons.
  rewrite (split_append _ _ _ Hx). by rewrite IH.
Qed.

Lemma split_absolute_append (segs : list string) (tail : string) :
  Forall (fun seg => Path.plain seg = true) segs ->
  Js.split "/" (Path.absolute segs +:+ "/" +:+ tail) =
    "" :: (if segs is [] then [""] else segs) ++ Js.split "/" tail.
Proof.
  intros H. unfold Path.absolute.
  change ("/" +:+ ?t) with (String "/" t). rewrite append_cons.
  cbn [Js.split]. rewrite Ascii.eqb_refl. f_equal.
  destruct segs as [|x l]; [done|].
  - apply split_joined_append; [|done].
    eapply Forall_impl; [exact H|apply plain_lacks].
Qed.

Lemma endsWithSlash_lacks (n : string) :
  Js.lacks "/" n = true -> Path.endsWithSlash n = false.
Proof.
  induction n as [|c n IH]; [done|]. simpl.
  intros [Hc Hn]%andb_prop. apply negb_true_iff in Hc.
  destruct n; [done|]. by apply IH.
Qed.

Lemma endsWithSlash_append (x n : string) :
  n ≠ "" -> Path.endsWithSlash (x +:+ n) = Path.endsWithSlash n.
Proof.
  intros Hn. induction x as [|c x IH]; [done|].
  rewrite append_cons. simpl. rewrite IH.
  destruct (x +:+ n) eqn:Hxn; [|done].
  destruct x; [by destruct Hn|done].
Qed.

Lemma plain_nonempty (seg : string) : Path.plain seg = true -> seg ≠ "".
Proof. by intros H ->. Qed.

(** [path.join] of a normalized absolute directory and a plain name is the
    path of the name right below the directory. *)
Lemma join_child (segs : list string) (name : string) :
  Forall (fun seg => Path.plain seg = true) segs ->
  Path.plain name = true ->
  Path.join [Path.absolute segs; name] = Path.absolute (segs ++ [name]).
Proof.
  intros H Hname. pose proof (plain_nonempty _ Hname) as Hne.
  assert (Hall : Forall (fun seg => Path.plain seg = true) (segs ++ [name])).
  { apply Forall_app. split; [done|by repeat constructor]. }
  unfold Path.join.
  rewrite filter_cons_True by done. rewrite filter_cons_True by done.
  rewrite filter_nil, join_pair. unfold Path.normalize.
  assert (String.eqb (Path.absolute segs +:+ "/" +:+ name) "" = false)
    as -> by done.
  assert (Path.isAbsolute (Path.absolute segs +:+ "/" +:+ name) = true)
    as -> by done.
  rewrite <- append_assoc, (endsWithSlash_append _ _ Hne), append_assoc.
  rewrite (endsWithSlash_lacks _ (plain_lacks _ Hname)).
  rewrite (split_absolute_append _ _ H).
  rewrite (split_lacks _ _ (plain_lacks _ Hname)).
  cbn [negb Path.normalizeString String.eqb orb].
  assert (Path.normalizeString false []
            ((if segs is [] then [""] else segs) ++ [name]) = segs ++ [name])
    as ->.
  { destruct segs as [|x l].
    - destruct (plain_kept _ Hname) as [H1 H2]. simpl. by rewrite H1, H2.
    - rewrite <- (app_nil_r ((x :: l) ++ [name])) at 1.
      rewrite normalizeString_plain by done.
      rewrite app_nil_r. cbn [Path.normalizeString]. apply rev_involutive. }
  rewrite join_plain_nonempty; [|done|by destruct segs].
  by rewrite append_nil_r.
Qed.

(** For a working directory with a normalized path and a name that is one
    plain segment, the project path the pre-flight steps compute is the
    path of that name right below the working directory, and it names the
    place one segment below it. *)
Theorem project_is_child (env : Env) (name : string) :
  argv env !! 2%nat = Some name ->
  Path.plain name = true ->
  Forall (fun seg => Path.plain seg = true) (startDir env) ->
  fst (preflight env (initial env)) = Returns tt ->
  projectPath (preflighted env) =
    Some (Path.absolute (startDir env ++ [name]))
  ∧ projectPlace env = startDir env ++ [name].
Proof.
  intros Harg Hname Hdir Hp.
  destruct (argument_given _ _ Harg) as [Hn _].
  destruct (preflight_returns env Hp) as [Hpath _].
  unfold projectPlace. rewrite Hpath, Hn, (join_child _ _ Hdir Hname).
  split; [done|]. apply resolve_absolute.
  apply Forall_app. split; [done|by repeat constructor].
Qed.

Lemma project_is_child_witness :
  projectPath (preflighted (Demo.env "18.12.0" "my-app" None)) =
    Some "/home/u/work/my-app"
  ∧ projectPlace (Demo.env "18.12.0" "my-app" None) =
    ["home"; "u"; "work"; "my-app"].
Proof.
  apply (project_is_child (Demo.env "18.12.0" "my-app" None) "my-app");
    [reflexivity | reflexivity | repeat constructor | reflexivity].
Defined.


(** ** When the handler itself fails *)






(** ** The commands of [postInstall] *)

Lemma postInstall_ran (env : Env) (s : State) :
  exists ran,
    executed (snd (postInstall env s)) = executed s ++ ran
    ∧ ran `prefix_of`
        postInstallPlan env (packageManager (selectedDependencies s))
          (default [] (backendServices (selectedDependencies s)))
    ∧ (fst (postInstall env s) = Returns tt ->
       ran = postInstallPlan env (packageManager (selectedDependencies s))
               (default [] (backendServices (selectedDependencies s))))
    ∧ (forall e, fst (postInstall env s) = Throws e ->
       (backendServices (selectedDependencies s) = None
        ∧ e = TypeError "includes" ∧ ran = [])
       ∨ (exists cmd, e = ChildProcessError cmd ∧ last ran = Some cmd)).
Proof.
  unfold postInstall, postInstallPlan, includes, execSync, when, console_log,
    emit, setDisk, bind, get, modify, ret, throw. simpl.
  destruct (backendServices (selectedDependencies s)) as [services|]; simpl.
  - destruct (bool_decide ("prisma" ∈ services));
      destruct (bool_decide ("supabase" ∈ services));
      destruct (isCreateSupabaseProject env);
      repeat match goal with
        | |- context [shell env ?c ?d ?k] =>
            destruct (shell env c d k) as [? []]; simpl
        end;
      eexists; (split;
        [ unfold executed; simpl;
          rewrite !commands_snoc, <- ?app_assoc; simpl;
          reflexivity
        | split; [by eexists|];
          split; [intros H; first [discriminate H | reflexivity]|];
          intros e H; first [discriminate H | right];
          injection H as <-; eexists; split; reflexivity ]).
  - exists []. unfold executed. simpl.
    rewrite !commands_snoc, !app_nil_r.
    split; [done|]. split; [apply prefix_nil|]. split; [done|].
    intros e [= <-]. by left.
Qed.

(** [postInstall] runs the commands of its plan in order (the Prisma
    generator, the Supabase generator, then login, project list and project
    creation of the Supabase CLI, each only if selected) and stops at the
    first one that fails: what it has run is always a beginning of the
    plan, it is the whole plan when [postInstall] returns, and when it
    throws, the error is that of the last command it ran. *)
Theorem postInstall_follows_plan (env : Env) (s : State)
    (services : list string) :
  backendServices (selectedDependencies s) = Some services ->
  exists ran,
    executed (snd (postInstall env s)) = executed s ++ ran
    ∧ ran `prefix_of`
        postInstallPlan env (packageManager (selectedDependencies s)) services
    ∧ (fst (postInstall env s) = Returns tt ->
       ran = postInstallPlan env (packageManager (selectedDependencies s))
               services)
    ∧ (forall e, fst (postInstall env s) = Throws e ->
       exists cmd, e = ChildProcessError cmd ∧ last ran = Some cmd).
Proof.
  intros Hs. destruct (postInstall_ran env s) as (ran & H1 & H2 & H3 & H4).
  rewrite Hs in H2, H3, H4. simpl in *.
  exists ran. do 3 (split; [done|]).
  intros e He. by destruct (H4 e He) as [(Hnone & _)|H].
Qed.

Lemma postInstall_follows_plan_witness :
  exists ran,
    executed (snd (postInstall Sample.full (equipped Sample.full))) =
      executed (equipped Sample.full) ++ ran
    ∧ ran `prefix_of`
        postInstallPlan Sample.full
          (packageManager (selectedDependencies (equipped Sample.full)))
          ["prisma"; "supabase"]
    ∧ (fst (postInstall Sample.full (equipped Sample.full)) = Returns tt ->
       ran = postInstallPlan Sample.full
               (packageManager (selectedDependencies (equipped Sample.full)))
               ["prisma"; "supabase"])
    ∧ (forall e,
         fst (postInstall Sample.full (equipped Sample.full)) = Throws e ->
         exists cmd, e = ChildProcessError cmd ∧ last ran = Some cmd).
Proof.
  apply (postInstall_follows_plan Sample.full (equipped Sample.full)
           ["prisma"; "supabase"]).
  reflexivity.
Defined.



(** ** The stages of the [try] block *)

Lemma furnish_stages (env : Env) (s : State) :
  furnish env s =
    match bind get (fun s => chdir (projectPath s)) s with
    | (Returns _, s3) =>
        match installDependencies env s3 with
        | (Returns _, s4) =>
            match postInstall env s4 with
            | (Returns _, s5) => bind cleanUp (fun _ => success) s5
            | (Throws e, s5) => (Throws e, s5)
            | (Exits c, s5) => (Exits c, s5)
            end
        | (Throws e, s4) => (Throws e, s4)
        | (Exits c, s4) => (Exits c, s4)
        end
    | (Throws e, s3) => (Throws e, s3)
    | (Exits c, s3) => (Exits c, s3)
    end.
Proof.
  unfold furnish. unfold bind at 1.
  destruct (bind get (fun s => chdir (projectPath s)) s)
    as [[[]|e|c] s3]; [|done..].
  unfold bind at 1.
  destruct (installDependencies env s3) as [[[]|e|c] s4]; [|done..].
  unfold bind at 1.
  by destruct (postInstall env s4) as [[[]|e|c] s5].
Qed.




(** The commands when each stage is over. *)
Lemma stage_commands (env : Env) :
  fst (preflight env (initial env)) = Returns tt ->
  let clone :=
    cloneCommand
      (Some (Path.join [Path.absolute (startDir env); argument env])) in
  let install :=
    getInstallCommand (packageManager (dependencyAnswers env))
      (allDependencies (cssStyling (dependencyAnswers env))
         (backendServices (dependencyAnswers env))) in
  executed (cloned env) = [clone]
  ∧ executed (entered env) = [clone]
  ∧ executed (equipped env) = [clone; install].
Proof.
  intros Hp clone install.
  destruct (preflight_returns env Hp) as (Hpath & _ & _ & Hnone).
  fold (executed (preflighted env)) in Hnone.
  assert (H1 : executed (cloned env) = [clone]).
  { unfold cloned. by rewrite cloneRepo_commands, Hpath, Hnone. }
  assert (H2 : executed (entered env) = [clone]).
  { unfold entered. by rewrite enter_quiet. }
  do 2 (split; [done|]).
  unfold equipped, executed in *.
  by rewrite installDependencies_commands, H2.
Qed.

(** Whatever happens, the commands a run gives to child processes are a
    beginning of its planned sequence: the clone, the install command, then
    the plan of [postInstall].  The run starts no child process at all
    exactly when a pre-flight step has refused to go on. *)
Theorem run_follows_plan (env : Env) :
  executed (snd (run env)) `prefix_of` plannedCommands env
  ∧ (executed (snd (run env)) = [] <->
     fst (preflight env (initial env)) ≠ Returns tt).
Proof.
  rewrite run_executed. unfold plannedCommands.
  destruct (fst (preflight env (initial env))) as [[]|e|c] eqn:Hp.
  2,3: split; [apply prefix_nil|done].
  destruct (stage_commands env Hp) as (H1 & H2 & H3).
  destruct (postInstall_ran env (equipped env)) as (ran & Hran & Hpre & _).
  unfold equipped in Hpre, Hran, H3.
  rewrite installDependencies_selected in Hpre.
  rewrite Hran, H3, H1.
  destruct (fst (cloneRepo env (preflighted env))) as [[]|e|c];
    [|split; [by eexists|split; [done|by intros H]]..].
  destruct (fst (bind get (fun s => chdir (projectPath s)) (cloned env)))
    as [[]|e|c]; [|split; [by eexists|split; [done|by intros H]]..].
  destruct (fst (installDependencies env (entered env))) as [[]|e|c];
    [|split; [by eexists|split; [done|by intros H]]..].
  split; [by apply prefix_app|]. split; [done|by intros H].
Qed.

(** ** Places *)

Lemma split_pieces_lack (c : ascii) (s : string) :
  Forall (fun piece => Js.lacks c piece = true) (Js.split c s).
Proof.
  induction s as [|d s IH]; [by repeat constructor|].
  simpl. destruct (Ascii.eqb d c) eqn:Hd; [by constructor|].
  destruct (Js.split c s) as [|w ws].
  { constructor; [|constructor]. simpl. by rewrite Hd. }
  inversion IH as [|? ? Hw Hws]; subst.
  constructor; [|done]. simpl. by rewrite Hd, Hw.
Qed.

Lemma normalizeString_yields_plain (res segs : list string) :
  Forall (fun seg => Path.plain seg = true) res ->
  Forall (fun seg => Js.lacks "/" seg = true) segs ->
  Forall (fun seg => Path.plain seg = true)
    (Path.normalizeString false res segs).
Proof.
  intros Hres Hsegs. revert res Hres.
  induction Hsegs as [|x l Hx _ IH]; intros res Hres.
  - simpl. by apply Forall_rev.
  - simpl. destruct (String.eqb x "" || String.eqb x ".") eqn:H1; [by apply IH|].
    destruct (String.eqb x "..") eqn:H2.
    + destruct res as [|top res']; [by apply IH|].
      inversion Hres; subst.
      destruct (String.eqb top ".."); by apply IH.
    + apply IH. constructor; [|done].
      apply orb_false_elim in H1 as [H0 H1].
      unfold Path.plain. by rewrite H0, H1, H2, Hx.
Qed.

(** Every place a path resolves to has plain segments. *)
Lemma resolve_plain (dir : list string) (p : string) :
  Forall (fun seg => Path.plain seg = true) (Path.resolve dir p).
Proof.
  unfold Path.resolve.
  apply normalizeString_yields_plain; [done|apply split_pieces_lack].
Qed.

(** In a directory with plain segments, [./.git] is the entry [.git] right
    below it. *)
Lemma resolve_git (dir : list string) :
  Forall (fun seg => Path.plain seg = true) dir ->
  Path.resolve dir "./.git" = dir ++ [".git"].
Proof.
  intros H. unfold Path.resolve.
  assert (Path.isAbsolute "./.git" = false) as -> by done.
  rewrite (split_absolute_append _ _ H).
  assert (Js.split "/" "./.git" = ["."; ".git"]) as -> by done.
  cbn [Path.normalizeString String.eqb orb].
  destruct dir as [|x l]; [done|].
  rewrite normalizeString_plain by done.
  rewrite app_nil_r.
  cbn [Path.normalizeString String.eqb Ascii.eqb Bool.eqb orb].
  change (rev (".git" :: ?r)) with (rev r ++ [".git"]).
  by rewrite rev_involutive.
Qed.

(** ** The end of a run that goes through *)



Lemma enter_untouched :
  preserves isCurrentDir (bind get (fun s => chdir (projectPath s)))
  ∧ preserves projectName (bind get (fun s => chdir (projectPath s)))
  ∧ preserves removed (bind get (fun s => chdir (projectPath s)))
  ∧ preserves disk (bind get (fun s => chdir (projectPath s))).
Proof. repeat split; frame still. Qed.

Lemma installDependencies_untouched (env : Env) :
  preserves isCurrentDir (installDependencies env)
  ∧ preserves projectName (installDependencies env)
  ∧ preserves removed (installDependencies env)
  ∧ preserves cwd (installDependencies env).
Proof.
  unfold installDependencies, console_log. repeat split; frame still.
Qed.

Lemma postInstall_untouched (env : Env) :
  preserves isCurrentDir (postInstall env)
  ∧ preserves projectName (postInstall env)
  ∧ preserves removed (postInstall env)
  ∧ preserves cwd (postInstall env).
Proof. unfold postInstall, console_log. repeat split; frame still. Qed.



Lemma finish_cases (s : State) :
  Forall (fun seg => Path.plain seg = true) (cwd s) ->
  bind cleanUp (fun _ => success) s =
    if present (cwd s ++ [".git"]) (disk s)
    then
      (Returns tt,
       logs [Console Stdout (Figlet "SUCCESS!");
             Console Stdout
               (Text ("Airfoil Lab project created! " +:+
                      (if isCurrentDir s then ""
                       else "cd " +:+ Js.text (projectName s) +:+
                            " to start!")))]
         (withDisk (disk s ∖ below (cwd s ++ [".git"]) (disk s))
            (logged (RmSync "./.git") s)))
    else (Throws (ENOENT "./.git"), logged (RmSync "./.git") s).
Proof.
  intros Hplain.
  unfold cleanUp, success, rmSync, console_log, emit, setDisk, bind, get,
    modify, throw. simpl.
  rewrite (resolve_git _ Hplain).
  destruct (present _ _); [|done]. simpl.
  unfold logged. by rewrite logs_logs.
Qed.




(** ** Failures late in the [try] block *)





(** ** The script removes nothing outside the project *)

Section Outside.
Context (env : Env) (q : list string).

(** No child process removes the entry [q]. *)
Hypothesis children_keep :
  forall cmd dir d, q ∈ d -> q ∈ fst (shell env cmd dir d).

(** The entry [q] is not at or below the place of the project. *)
Hypothesis outside : ¬ projectPlace env `prefix_of` q.

Lemma keeps_ret {A} (I : State -> Prop) (a : A) : keeps I (ret a).
Proof. by intros s. Qed.

Lemma keeps_throw {A} (I : State -> Prop) (e : Error) :
  keeps I (@throw A e).
Proof. by intros s. Qed.

Lemma keeps_get (I : State -> Prop) : keeps I get.
Proof. by intros s. Qed.

Lemma keeps_modify (I : State -> Prop) (g : State -> State) :
  (forall s, I s -> I (g s)) -> keeps I (modify g).
Proof. intros H s. apply H. Qed.

Lemma keeps_bind {A B} (I : State -> Prop) (m : Proc A) (k : A -> Proc B) :
  keeps I m -> (forall a, keeps I (k a)) -> keeps I (bind m k).
Proof.
  intros Hm Hk s Hs. unfold bind. specialize (Hm s Hs).
  destruct (m s) as [[a|e|c] s']; simpl in *; [|done..].
  by apply Hk.
Qed.

Lemma keeps_when (I : State -> Prop) (b : bool) (m : Proc unit) :
  keeps I m -> keeps I (when b m).
Proof. intros H. destruct b; [done|]. apply keeps_ret. Qed.

Lemma execSync_keeps (cmd : string) :
  keeps (fun s => q ∈ disk s) (execSync env cmd).
Proof.
  intros s Hs.
  unfold execSync, emit, setDisk, bind, get, modify, ret, throw. simpl.
  pose proof (children_keep cmd (cwd s) (disk s) Hs) as Hkeep.
  by destruct (shell env cmd (cwd s) (disk s)) as [d [|]].
Qed.

(** One step of a proof that a procedure keeps the entry [q]. *)
Ltac keep_step :=
  lazymatch goal with
  | |- keeps _ (execSync _ _) => apply execSync_keeps
  | |- keeps _ (ret _) => apply keeps_ret
  | |- keeps _ (throw _) => apply keeps_throw
  | |- keeps _ get => apply keeps_get
  | |- keeps _ (modify _) => apply keeps_modify; intros ? ?; assumption
  | |- keeps _ (bind _ _) => apply keeps_bind; [|intros ?]
  | |- keeps _ (when _ _) => apply keeps_when
  | |- keeps _ (if ?b then _ else _) => destruct b
  | |- keeps _ (match ?x with _ => _ end) => destruct x
  | |- keeps _ (includes _ _) => unfold includes
  | |- keeps _ (console_log _) => unfold console_log
  | |- keeps _ (emit _) => unfold emit
  | |- keeps _ (setSelectedDependencies _) => unfold setSelectedDependencies
  | |- keeps _ _ => progress cbv zeta
  end.

Lemma cloneRepo_keeps : keeps (fun s => q ∈ disk s) (cloneRepo env).
Proof. unfold cloneRepo. repeat keep_step. Qed.

Lemma installDependencies_keeps :
  keeps (fun s => q ∈ disk s) (installDependencies env).
Proof. unfold installDependencies. repeat keep_step. Qed.

Lemma postInstall_keeps : keeps (fun s => q ∈ disk s) (postInstall env).
Proof. unfold postInstall. repeat keep_step. Qed.

Lemma rmSync_keeps (s : State) (p : string) :
  ¬ Path.resolve (cwd s) p `prefix_of` q ->
  q ∈ disk s -> q ∈ disk (snd (rmSync (Some p) s)).
Proof.
  intros Hout Hs.
  unfold rmSync, emit, setDisk, bind, get, modify, throw. simpl.
  destruct (present _ _); [|done]. simpl.
  apply elem_of_difference. split; [done|].
  unfold below. rewrite elem_of_filter. by intros [H _].
Qed.

Lemma rollback_keeps (e : Error) (s : State) :
  projectPath s =
    Some (Path.join [Path.absolute (startDir env); argument env]) ->
  q ∈ disk s -> q ∈ disk (snd (rollback e s)).
Proof.
  intros Hp Hs.
  unfold rollback, deleteDirectory, console_error, console_log, emit.
  unfold bind at 1, modify at 1. unfold bind at 1, modify at 1.
  unfold bind at 1, get at 1. simpl. rewrite Hp.
  apply rmSync_keeps; [|done]. simpl.
  rewrite (resolve_anywhere _ (startDir env)); [done|apply join_absolute].
Qed.

Lemma finish_keeps (s : State) :
  cwd s = projectPlace env ->
  q ∈ disk s -> q ∈ disk (snd (bind cleanUp (fun _ => success) s)).
Proof.
  intros Hcwd Hs.
  rewrite finish_cases by (rewrite Hcwd; apply resolve_plain).
  destruct (present _ _); [|done]. simpl.
  apply elem_of_difference. split; [done|].
  unfold below. rewrite elem_of_filter, Hcwd. intros [H _].
  apply outside. by apply prefix_app_l in H.
Qed.

Lemma enter_place (s : State) :
  projectPath s =
    Some (Path.join [Path.absolute (startDir env); argument env]) ->
  fst (bind get (fun s => chdir (projectPath s)) s) = Returns tt ->
  cwd (snd (bind get (fun s => chdir (projectPath s)) s)) = projectPlace env.
Proof.
  intros Hp.
  unfold bind at 1 2, get at 1 2. rewrite Hp.
  unfold chdir, emit, setCwd, bind, get, modify, throw. simpl.
  destruct (present _ _); [|done]. intros _. simpl.
  apply resolve_anywhere, join_absolute.
Qed.

Lemma furnish_keeps (s : State) :
  projectPath s =
    Some (Path.join [Path.absolute (startDir env); argument env]) ->
  q ∈ disk s -> q ∈ disk (snd (furnish env s)).
Proof.
  intros Hp Hs. rewrite furnish_stages.
  destruct enter_untouched as (_ & _ & _ & Hdisk).
  pose proof (Hdisk s) as Hd. pose proof (enter_place s Hp) as Hplace.
  destruct (bind get (fun s => chdir (projectPath s)) s)
    as [[[]|e|c] s3]; simpl in *; [|by rewrite Hd..].
  specialize (Hplace eq_refl).
  assert (H3 : q ∈ disk s3) by by rewrite Hd.
  pose proof (installDependencies_keeps s3 H3) as H4.
  destruct (installDependencies_untouched env) as (_ & _ & _ & Icwd).
  pose proof (Icwd s3) as Hcwd4.
  destruct (installDependencies env s3) as [[[]|e|c] s4]; simpl in *;
    [|done..].
  pose proof (postInstall_keeps s4 H4) as H5.
  destruct (postInstall_untouched env) as (_ & _ & _ & Pcwd).
  pose proof (Pcwd s4) as Hcwd5.
  destruct (postInstall env s4) as [[[]|e|c] s5]; simpl in *; [|done..].
  apply finish_keeps; [|done]. by rewrite Hcwd5, Hcwd4.
Qed.

(** An entry of the disk that lies outside the project and that no child
    process removes is still there when the run is over, however the run
    ends: the script itself removes only what is at or below the resolved
    path. *)
Theorem outside_untouched :
  q ∈ startDisk env -> q ∈ disk (snd (run env)).
Proof.
  intros Hq. unfold run. rewrite init_stages.
  pose proof (preflight_disk env (initial env)) as Hd.
  pose proof (preflight_returns env) as Hret. unfold preflighted in Hret.
  destruct (preflight env (initial env)) as [[[]|e|c] s1]; simpl in *;
    [|by rewrite Hd..].
  destruct (Hret eq_refl) as (Hpath & _).
  assert (H1 : q ∈ disk s1) by by rewrite Hd.
  rewrite try_stages.
  pose proof (cloneRepo_keeps s1 H1) as H2.
  pose proof (cloneRepo_path env s1) as Hp2.
  destruct (cloneRepo env s1) as [[[]|e|c] s2]; simpl in *.
  - rewrite Hpath in Hp2.
    pose proof (furnish_keeps s2 Hp2 H2) as H3.
    pose proof (furnish_path env s2) as Hp3.
    destruct (furnish env s2) as [[[]|e|c] s3]; simpl in *; [done| |done].
    apply rollback_keeps; [|done]. by rewrite Hp3.
  - apply rollback_keeps; [|done]. by rewrite Hp2.
  - done.
Qed.

End Outside.

Lemma outside_untouched_witness :
  ["home"; "u"; "notes.txt"] ∈
    disk (snd (run (Demo.env "18.12.0" "my-app" (Some "pnpm install")))).
Proof.
  apply outside_untouched.
  - intros cmd dir d Hq. unfold Demo.env, Demo.children. simpl.
    destruct (String.prefix "git clone" cmd); [|done].
    destruct (negb _); simpl; apply elem_of_union; by right.
  - vm_compute. intros [k Hk]. discriminate Hk.
  - vm_compute. reflexivity.
Defined.


(** ** The earlier revision *)

Lemma legacy_entries (key : string) :
  key ≠ "supabase" ->
  Legacy.packageDependencies !! key = packageDependencies !! key.
Proof.
  intros Hkey. unfold Legacy.packageDependencies, packageDependencies.
  destruct (decide (key = "chakraui")) as [->|H1]; [done|].
  destruct (decide (key = "tailwindcss")) as [->|H2]; [done|].
  destruct (decide (key = "prisma")) as [->|H3]; [done|].
  by rewrite !lookup_insert_ne, !lookup_empty by done.
Qed.

Lemma earlier_foldl (acc : string) (services : list string) :
  "supabase" ∉ services ->
  foldl (fun deps service =>
           deps +:+ Js.text (Legacy.packageDependencies !! service))
    acc services =
  foldl (fun deps service =>
           deps +:+ Js.text (packageDependencies !! service))
    acc services.
Proof.
  revert acc. induction services as [|x l IH]; intros acc Hnot; [done|].
  apply not_elem_of_cons in Hnot as [Hx Hl].
  simpl. rewrite legacy_entries by done. by apply IH.
Qed.

(** The two revisions differ in their tables only at ["supabase"], so they
    build the same dependency string, and with it the same install command,
    for every selection that does not name Supabase. *)
Theorem earlier_dependencies_agree (pm css : option string)
    (services : option (list string)) :
  css ≠ Some "supabase" ->
  "supabase" ∉ default [] services ->
  Earlier.allDependencies css services = allDependencies css services
  ∧ getInstallCommand pm (Earlier.allDependencies css services) =
    getInstallCommand pm (allDependencies css services).
Proof.
  intros Hcss Hservices.
  assert (H : Earlier.allDependencies css services =
              allDependencies css services); [|by rewrite H].
  unfold Earlier.allDependencies, allDependencies. f_equal. f_equal; [|f_equal].
  - unfold Earlier.getCssDependencies, getCssDependencies, property.
    rewrite legacy_entries; [done|].
    intros Hkey. destruct css as [css|]; [|done]. simpl in Hkey.
    by subst css.
  - unfold Earlier.getBackendServicesDependencies,
      getBackendServicesDependencies.
    destruct services as [services|]; [|done].
    destruct services as [|b services]; [done|].
    by apply earlier_foldl.
Qed.

Lemma earlier_dependencies_agree_witness :
  Earlier.allDependencies (Some "chakraui") (Some ["prisma"]) =
    allDependencies (Some "chakraui") (Some ["prisma"])
  ∧ getInstallCommand (Some "yarn")
      (Earlier.allDependencies (Some "chakraui") (Some ["prisma"])) =
    getInstallCommand (Some "yarn")
      (allDependencies (Some "chakraui") (Some ["prisma"])).
Proof.
  apply earlier_dependencies_agree.
  - discriminate.
  - simpl. intros H. apply list_elem_of_singleton in H. discriminate H.
Defined.







Lemma execSync_executed (env : Env) (cmd : string) (s : State) :
  executed (snd (execSync env cmd s)) = executed s ++ [cmd].
Proof.
  unfold execSync, emit, setDisk, bind, get, modify, ret, throw. simpl.
  destruct (shell env _ _ _) as [d [|]]; unfold executed; simpl;
    by rewrite commands_snoc.
Qed.




(** ** How a run can end *)












(** [copyBoilerplateFiles], which no [init] calls, does nothing when no
    framework was chosen, or the empty one, or ["none"]; for any other
    framework it runs one [rsync] from the directory of that name. *)
Lemma copyBoilerplateFiles_commands (env : Env) (s : State) :
  executed (snd (Earlier.copyBoilerplateFiles env s)) =
    executed s ++
    match cssStyling (selectedDependencies s) with
    | Some framework =>
        if negb (Js.truthy framework) || String.eqb framework "none"
        then []
        else ["rsync -avh boilerplate_files/" +:+ framework +:+ "/* ./"]
    | None => []
    end.
Proof.
  unfold Earlier.copyBoilerplateFiles. unfold bind at 1, get at 1.
  destruct (cssStyling (selectedDependencies s)) as [framework|];
    [|by rewrite app_nil_r].
  destruct (negb (Js.truthy framework) || String.eqb framework "none");
    [by rewrite app_nil_r|].
  unfold bind at 1, console_log, emit, modify.
  rewrite execSync_executed. unfold executed, logged, logs. simpl.
  by rewrite commands_snoc, app_nil_r.
Qed.
